(** * A shallow embedding of libshardcache's ARC cache (arc.c) and of its
    KePaxos replication engine (kepaxos.c), with proofs of their documented
    properties.

    Conventions.  A [uint64_t], [uint32_t] or [size_t] is a [Z] whose
    wrap-around is written out with [wrap64] and friends; a byte is a [Z] in
    [0, 256); a C buffer is a [list Z] of bytes.  Callbacks of the C code are
    functions in records that mirror the C callback structs, and every
    callback the code invokes is recorded in a trace, so that statements can
    talk about "the fetch callback returned -1" or "the commit callback was
    invoked". *)

From Stdlib Require Import ZArith Lia List Bool.
Import ListNotations.
Open Scope Z_scope.

(* ================================================================== *)
(** ** Machine integers *)

Definition wrap16 (x : Z) : Z := x mod 2 ^ 16.
Definition wrap64 (x : Z) : Z := x mod 2 ^ 64.

Definition is_u64 (x : Z) : Prop := 0 <= x < 2 ^ 64.

(** A byte buffer (C [void *] with its length) as a list of bytes. *)
Definition buffer := list Z.

Definition buf_eqb (a b : buffer) : bool :=
  if list_eq_dec Z.eq_dec a b then true else false.

(** An association list standing for the [hashtable_t] of libhl that both
    engines use ([ht_get], [ht_set], [ht_delete]). *)
Section Table.
Context {V : Type}.

Fixpoint ht_get (t : list (buffer * V)) (k : buffer) : option V :=
  match t with
  | [] => None
  | (k', v) :: t' => if buf_eqb k k' then Some v else ht_get t' k
  end.

Fixpoint ht_delete (t : list (buffer * V)) (k : buffer) : list (buffer * V) :=
  match t with
  | [] => []
  | (k', v) :: t' => if buf_eqb k k' then ht_delete t' k else (k', v) :: ht_delete t' k
  end.

Definition ht_set (t : list (buffer * V)) (k : buffer) (v : V) : list (buffer * V) :=
  (k, v) :: ht_delete t k.

End Table.

(* ================================================================== *)
(** ** KePaxos wire format: [kepaxos_build_message] / [kepaxos_parse_message] *)

(** [kepaxos_msg_type_t] *)
Inductive kepaxos_msg_type :=
| KEPAXOS_MSG_TYPE_PRE_ACCEPT
| KEPAXOS_MSG_TYPE_PRE_ACCEPT_RESPONSE
| KEPAXOS_MSG_TYPE_ACCEPT
| KEPAXOS_MSG_TYPE_ACCEPT_RESPONSE
| KEPAXOS_MSG_TYPE_COMMIT.

Definition msg_type_code (t : kepaxos_msg_type) : Z :=
  match t with
  | KEPAXOS_MSG_TYPE_PRE_ACCEPT => 1
  | KEPAXOS_MSG_TYPE_PRE_ACCEPT_RESPONSE => 2
  | KEPAXOS_MSG_TYPE_ACCEPT => 3
  | KEPAXOS_MSG_TYPE_ACCEPT_RESPONSE => 4
  | KEPAXOS_MSG_TYPE_COMMIT => 5
  end.

(** [kepaxos_msg_t]: the parsed view of a message.  [msg_peer] holds the
    [sender_len] bytes [peer] points to (the sender and its NUL byte);
    [msg_key] and [msg_data] are empty where the C code sets them to NULL. *)
Record kepaxos_msg := mkmsg {
  msg_peer : buffer;
  msg_ballot : Z;
  msg_seq : Z;
  msg_mtype : Z;
  msg_ctype : Z;
  msg_committed : Z;
  msg_key : buffer;
  msg_data : buffer
}.

(** [htons] / [htonl] followed by [memcpy]: the big-endian bytes of a 16-bit
    or 32-bit value; [ntohs] / [ntohl] of the bytes read back. *)
Definition put_be16 (x : Z) : buffer := [x / 256; x mod 256].

Definition get_be16 (l : buffer) : Z := nth 0 l 0 * 256 + nth 1 l 0.

Definition put_be32 (x : Z) : buffer := put_be16 (x / 65536) ++ put_be16 (x mod 65536).

Definition get_be32 (l : buffer) : Z := get_be16 (firstn 2 l) * 65536 + get_be16 (skipn 2 l).

(** [KEPAXOS_MSGLEN_MIN = 3 + sizeof(uint32_t) * 6 + sizeof(uint16_t)] *)
Definition KEPAXOS_MSGLEN_MIN : Z := 3 + 4 * 6 + 2.

(** [kepaxos_build_message]: [sender] is the C string without its NUL byte,
    [key] and [data] are the [klen] and [dlen] bytes the pointers refer to.
    The [int committed] argument is used as a flag ([committed ? 1 : 0]). *)
Definition kepaxos_build_message (sender : buffer) (mtype : kepaxos_msg_type) (ctype : Z)
    (ballot : Z) (key : buffer) (data : buffer) (seq : Z) (committed : bool) : buffer :=
  let sender_len := Z.of_nat (length sender) + 1 in
  let klen := Z.of_nat (length key) in
  let dlen := Z.of_nat (length data) in
  let ballot_low := Z.land ballot 4294967295 in
  let ballot_high := Z.shiftr ballot 32 in
  let seq_low := Z.land seq 4294967295 in
  let seq_high := Z.shiftr seq 32 in
  put_be16 (wrap16 sender_len) ++ (sender ++ [0]) ++
  put_be32 ballot_high ++ put_be32 ballot_low ++
  put_be32 seq_high ++ put_be32 seq_low ++
  [msg_type_code mtype; ctype; if committed then 1 else 0] ++
  put_be32 klen ++ key ++
  put_be32 dlen ++ data.

(** [kepaxos_parse_message]: [None] is the [return -1] of a short buffer. *)
Definition kepaxos_parse_message (msg : buffer) : option kepaxos_msg :=
  let msglen := Z.of_nat (length msg) in
  let expected_len := KEPAXOS_MSGLEN_MIN in
  if msglen <? expected_len then None else
  let sender_len := get_be16 (firstn 2 msg) in
  let p := skipn 2 msg in
  let peer := firstn (Z.to_nat sender_len) p in
  let p := skipn (Z.to_nat sender_len) p in
  let expected_len := expected_len + sender_len in
  if msglen <? expected_len then None else
  let ballot_high := get_be32 (firstn 4 p) in
  let p := skipn 4 p in
  let ballot_low := get_be32 (firstn 4 p) in
  let p := skipn 4 p in
  let ballot := Z.lor (Z.shiftl ballot_high 32) ballot_low in
  let seq_high := get_be32 (firstn 4 p) in
  let p := skipn 4 p in
  let seq_low := get_be32 (firstn 4 p) in
  let p := skipn 4 p in
  let seq := Z.lor (Z.shiftl seq_high 32) seq_low in
  let mtype := nth 0 p 0 in
  let ctype := nth 1 p 0 in
  let committed := nth 2 p 0 in
  let p := skipn 3 p in
  let klen := get_be32 (firstn 4 p) in
  let expected_len := expected_len + klen in
  if msglen <? expected_len then None else
  let p := skipn 4 p in
  let key := if klen =? 0 then [] else firstn (Z.to_nat klen) p in
  let p := if klen =? 0 then p else skipn (Z.to_nat klen) p in
  let dlen := get_be32 (firstn 4 p) in
  let expected_len := expected_len + dlen in
  if msglen <? expected_len then None else
  let data := if dlen =? 0 then [] else firstn (Z.to_nat dlen) (skipn 4 p) in
  Some (mkmsg peer ballot seq mtype ctype committed key data).

(** A sender name of 65535 bytes: with its NUL it needs 65536, which the
    16-bit length field truncates to 0. *)
Definition long_sender : buffer := repeat 97 (Z.to_nat 65535).

(* ================================================================== *)
(** ** Ballots: [update_ballot] *)

(** [BALLOT_VALUE(b) = b >> 8] *)
Definition BALLOT_VALUE (b : Z) : Z := Z.shiftr b 8.

(** [ke->ballot = (1 << 8) | ke->my_index] in [kepaxos_context_create]. *)
Definition ballot_init (my_index : Z) : Z := Z.lor (Z.shiftl 1 8) my_index.

(** [update_ballot]: returns the new value of [ke->ballot].  The
    [real_ballot == 0] branch calls [kepaxos_reset_ballot], whose body is
    empty (a TODO), so the ballot is left as it is.  [ATOMIC_SET_IF(v, <, n)]
    stores [n] when [v < n]. *)
Definition update_ballot (my_index : Z) (cur : Z) (ballot : Z) : Z :=
  let real_ballot := BALLOT_VALUE ballot in
  let updated_ballot := wrap64 (real_ballot + 1) in
  if real_ballot =? 0 then cur
  else if updated_ballot =? 0 then my_index
  else
    let nb := Z.lor (wrap64 (Z.shiftl updated_ballot 8)) my_index in
    if cur <? nb then nb else cur.

(** The local ballot after any sequence of inbound ballots (including the
    [update_ballot] call of [kepaxos_context_create]). *)
Definition ballot_after (my_index : Z) (bs : list Z) : Z :=
  fold_left (update_ballot my_index) bs (ballot_init my_index).

(* ================================================================== *)
(** ** KePaxos engine state *)

(** [kepaxos_cmd_status_t] *)
Inductive kepaxos_cmd_status :=
| KEPAXOS_CMD_STATUS_NONE
| KEPAXOS_CMD_STATUS_PRE_ACCEPTED
| KEPAXOS_CMD_STATUS_ACCEPTED
| KEPAXOS_CMD_STATUS_COMMITTED.

Definition status_eqb (a b : kepaxos_cmd_status) : bool :=
  match a, b with
  | KEPAXOS_CMD_STATUS_NONE, KEPAXOS_CMD_STATUS_NONE
  | KEPAXOS_CMD_STATUS_PRE_ACCEPTED, KEPAXOS_CMD_STATUS_PRE_ACCEPTED
  | KEPAXOS_CMD_STATUS_ACCEPTED, KEPAXOS_CMD_STATUS_ACCEPTED
  | KEPAXOS_CMD_STATUS_COMMITTED, KEPAXOS_CMD_STATUS_COMMITTED => true
  | _, _ => false
  end.

(** [kepaxos_vote_t] (the [key] fields of a vote are never set by the code). *)
Record kepaxos_vote := mkvote { vote_peer : buffer; vote_ballot : Z; vote_seq : Z }.

(** [struct __kepaxos_cmd_s].  The lock, the condition variable, the
    [timestamp] / [timeout] pair read by the expirer thread and the unused
    [msg] field are left out; [max_voter] NULL is the empty buffer. *)
Record kepaxos_cmd := mkcmd {
  cmd_type : Z;
  cmd_status : kepaxos_cmd_status;
  cmd_seq : Z;
  cmd_key : buffer;
  cmd_data : buffer;
  cmd_votes : list kepaxos_vote;
  cmd_num_votes : Z;
  cmd_max_seq : Z;
  cmd_max_seq_committed : Z;
  cmd_max_voter : buffer;
  cmd_ballot : Z;
  cmd_waiting : bool
}.

(** A freshly [calloc]ed command (the placeholders of the acceptor paths). *)
Definition cmd_calloc (key : buffer) : kepaxos_cmd :=
  mkcmd 0 KEPAXOS_CMD_STATUS_NONE 0 key [] [] 0 0 0 [] 0 false.

Definition cmd_set_seq_ballot_status (c : kepaxos_cmd) (seq ballot : Z) (st : kepaxos_cmd_status) :=
  mkcmd (cmd_type c) st seq (cmd_key c) (cmd_data c) (cmd_votes c) (cmd_num_votes c)
        (cmd_max_seq c) (cmd_max_seq_committed c) (cmd_max_voter c) ballot (cmd_waiting c).

(** [free(cmd->votes); votes = NULL; num_votes = 0; max_seq = 0; max_voter = NULL]
    together with the new [seq] and [ballot] of a new Accept round. *)
Definition cmd_reset_votes (c : kepaxos_cmd) (seq ballot : Z) (st : kepaxos_cmd_status) :=
  mkcmd (cmd_type c) st seq (cmd_key c) (cmd_data c) [] 0 0 (cmd_max_seq_committed c) [] ballot
        (cmd_waiting c).

(** The persistent log (key -> (ballot, seq)).  Modelled from the spec: the
    log store ([kepaxos_log_t], [kepaxos_last_seq_for_key],
    [kepaxos_set_last_seq_for_key], [kepaxos_max_ballot],
    [kepaxos_diff_from_ballot]) is not part of src/; the spec (section 6)
    describes it as a mapping whose writes are visible immediately.  A key
    with no entry reads as seq 0 and ballot 0. *)
Definition kepaxos_log := list (buffer * (Z * Z)).

Definition kepaxos_last_seq_for_key (log : kepaxos_log) (key : buffer) : Z * Z :=
  match ht_get log key with
  | Some (ballot, seq) => (seq, ballot)
  | None => (0, 0)
  end.

Definition kepaxos_set_last_seq_for_key (log : kepaxos_log) (key : buffer) (ballot seq : Z)
  : kepaxos_log := ht_set log key (ballot, seq).

Definition kepaxos_max_ballot (log : kepaxos_log) : Z :=
  fold_right (fun it m => Z.max (fst (snd it)) m) 0 log.

(** [kepaxos_diff_item_t]: a key with its logged ballot and seq. *)
Record kepaxos_diff_item := mkdiff { diff_key : buffer; diff_ballot : Z; diff_seq : Z }.

(** Modelled from the spec: [diff_from_ballot(b)] returns the keys whose
    ballot exceeds [b]. *)
Definition kepaxos_diff_from_ballot (log : kepaxos_log) (ballot : Z) : Z * list kepaxos_diff_item :=
  (0, map (fun it => mkdiff (fst it) (fst (snd it)) (snd (snd it)))
          (filter (fun it => ballot <? fst (snd it)) log)).

(** [struct __kepaxos_s] *)
Record kepaxos := mkke {
  ke_log : kepaxos_log;
  ke_commands : list (buffer * kepaxos_cmd);
  ke_peers : list buffer;
  ke_num_peers : Z;
  ke_my_index : Z;
  ke_ballot : Z
}.

Definition ke_set_log (ke : kepaxos) (log : kepaxos_log) : kepaxos :=
  mkke log (ke_commands ke) (ke_peers ke) (ke_num_peers ke) (ke_my_index ke) (ke_ballot ke).

Definition ke_set_commands (ke : kepaxos) (t : list (buffer * kepaxos_cmd)) : kepaxos :=
  mkke (ke_log ke) t (ke_peers ke) (ke_num_peers ke) (ke_my_index ke) (ke_ballot ke).

Definition ke_set_ballot (ke : kepaxos) (b : Z) : kepaxos :=
  mkke (ke_log ke) (ke_commands ke) (ke_peers ke) (ke_num_peers ke) (ke_my_index ke) b.

(** [kepaxos_callbacks_t] *)
Record kepaxos_callbacks := mkcbs {
  cb_send : list buffer -> buffer -> Z;
  cb_commit : Z -> buffer -> buffer -> Z -> Z;
  cb_recover : buffer -> buffer -> Z -> Z -> Z
}.

(** The callback invocations of a call, in order. *)
Inductive ke_event :=
| EvSend (recipients : list buffer) (msg : buffer)
| EvCommit (ctype : Z) (key data : buffer) (leader : Z)
| EvRecover (peer key : buffer) (seq ballot : Z).

(** [ke->peers[ke->my_index]] *)
Definition ke_me (ke : kepaxos) : buffer := nth (Z.to_nat (ke_my_index ke)) (ke_peers ke) [].

(** The [receivers] array: every peer but [my_index]. *)
Definition ke_receivers (ke : kepaxos) : list buffer :=
  firstn (Z.to_nat (ke_my_index ke)) (ke_peers ke) ++ skipn (S (Z.to_nat (ke_my_index ke))) (ke_peers ke).

(** [BALLOT2NODE] and [IS_MY_BALLOT] *)
Definition BALLOT2NODE (ke : kepaxos) (b : Z) : buffer := nth (Z.to_nat (Z.land b 255)) (ke_peers ke) [].

Definition IS_MY_BALLOT (ke : kepaxos) (b : Z) : bool := ke_my_index ke =? Z.land b 255.

(* ================================================================== *)
(** ** KePaxos leader-side operations *)

Definition kepaxos_send_to_peers (ke : kepaxos) (cb : kepaxos_callbacks) (msg : buffer)
  : Z * list ke_event :=
  (cb_send cb (ke_receivers ke) msg, [EvSend (ke_receivers ke) msg]).

Definition kepaxos_send_preaccept ke cb ballot key seq : Z * list ke_event :=
  kepaxos_send_to_peers ke cb
    (kepaxos_build_message (ke_me ke) KEPAXOS_MSG_TYPE_PRE_ACCEPT 0 ballot key [] seq false).

Definition kepaxos_send_accept ke cb ballot key seq : Z * list ke_event :=
  kepaxos_send_to_peers ke cb
    (kepaxos_build_message (ke_me ke) KEPAXOS_MSG_TYPE_ACCEPT 0 ballot key [] seq false).

Definition kepaxos_send_commit ke cb (cmd : kepaxos_cmd) : Z * list ke_event :=
  kepaxos_send_to_peers ke cb
    (kepaxos_build_message (ke_me ke) KEPAXOS_MSG_TYPE_COMMIT (cmd_type cmd) (cmd_ballot cmd)
       (cmd_key cmd) (cmd_data cmd) (cmd_seq cmd) true).

(** [kepaxos_commit]: commit callback as leader; on success record
    [(ballot, seq)] in the log and broadcast the Commit. *)
Definition kepaxos_commit (ke : kepaxos) (cb : kepaxos_callbacks) (cmd : kepaxos_cmd)
  : Z * kepaxos * list ke_event :=
  let rc := cb_commit cb (cmd_type cmd) (cmd_key cmd) (cmd_data cmd) 1 in
  let ev := EvCommit (cmd_type cmd) (cmd_key cmd) (cmd_data cmd) 1 in
  if rc =? 0 then
    let ke1 := ke_set_log ke
                 (kepaxos_set_last_seq_for_key (ke_log ke) (cmd_key cmd) (cmd_ballot cmd) (cmd_seq cmd)) in
    let '(rc', evs) := kepaxos_send_commit ke1 cb cmd in
    (rc', ke1, ev :: evs)
  else (rc, ke, [ev]).

(** [kepaxos_command_create] with [seq] the last logged seq of the key: the
    new command replaces (and aborts) any previous one for the key. *)
Definition kepaxos_command_create (ke : kepaxos) (seq : Z) (type : Z) (key data : buffer)
  : kepaxos_cmd * kepaxos :=
  let seq := wrap64 (seq + 1) in
  let cmd := mkcmd type KEPAXOS_CMD_STATUS_PRE_ACCEPTED seq key data [] 0 0 0 [] (ke_ballot ke) false in
  let cmd := match ht_get (ke_commands ke) key with
             | Some prev_cmd =>
                 let interfering_seq := cmd_seq prev_cmd in
                 cmd_set_seq_ballot_status cmd (Z.max seq (wrap64 (interfering_seq + 1)))
                   (cmd_ballot cmd) (cmd_status cmd)
             | None => cmd
             end in
  (cmd, ke_set_commands ke (ht_set (ke_commands ke) key cmd)).

(** [kepaxos_run_command].  While the caller is blocked on the command's
    condition variable (and, with a synchronous transport, inside the
    [send] callback) other threads run the protocol; [env] is their effect on
    the engine.  The result is decided by the log read after the wakeup. *)
Definition kepaxos_run_command (ke : kepaxos) (cb : kepaxos_callbacks) (type : Z) (key data : buffer)
    (env : kepaxos -> kepaxos) : Z * kepaxos * list ke_event :=
  let last_seq := fst (kepaxos_last_seq_for_key (ke_log ke) key) in
  let '(cmd, ke1) := kepaxos_command_create ke last_seq type key data in
  let seq := cmd_seq cmd in
  let ballot := cmd_ballot cmd in
  let '(_, evs) := kepaxos_send_preaccept ke1 cb ballot key seq in
  let ke2 := env ke1 in
  let current_seq := fst (kepaxos_last_seq_for_key (ke_log ke2) key) in
  ((if current_seq >=? seq then 0 else -1), ke2, evs).

(* ================================================================== *)
(** ** KePaxos message handlers *)

Definition ke_put_cmd (ke : kepaxos) (key : buffer) (cmd : kepaxos_cmd) : kepaxos :=
  ke_set_commands ke (ht_set (ke_commands ke) key cmd).

Definition ke_del_cmd (ke : kepaxos) (key : buffer) : kepaxos :=
  ke_set_commands ke (ht_delete (ke_commands ke) key).

(** [kepaxos_handle_preaccept]: result code, new state, callbacks and the
    response buffer (if any). *)
Definition kepaxos_handle_preaccept (ke : kepaxos) (cb : kepaxos_callbacks) (msg : kepaxos_msg)
  : Z * kepaxos * list ke_event * option buffer :=
  let '(local_seq, local_ballot) := kepaxos_last_seq_for_key (ke_log ke) (msg_key msg) in
  if (local_seq =? msg_seq msg) && (local_ballot =? msg_ballot msg) then (-1, ke, [], None) else
  let found :=
    match ht_get (ke_commands ke) (msg_key msg) with
    | Some cmd =>
        if msg_ballot msg <? cmd_ballot cmd then None
        else Some (cmd_set_seq_ballot_status cmd (cmd_seq cmd) (Z.max (msg_ballot msg) (cmd_ballot cmd))
                     (cmd_status cmd), cmd_seq cmd)
    | None =>
        Some (cmd_set_seq_ballot_status (cmd_calloc (msg_key msg)) (msg_seq msg) (msg_ballot msg)
                KEPAXOS_CMD_STATUS_NONE, 0)
    end in
  match found with
  | None => (-1, ke, [], None)
  | Some (cmd, interfering_seq) =>
      let interfering_seq := Z.max local_seq interfering_seq in
      let max_seq := Z.max (msg_seq msg) interfering_seq in
      let '(cmd, evs) :=
        if msg_seq msg >=? interfering_seq then
          let evs := if status_eqb (cmd_status cmd) KEPAXOS_CMD_STATUS_ACCEPTED
                        && negb (IS_MY_BALLOT ke (cmd_ballot cmd))
                     then [EvRecover (BALLOT2NODE ke (cmd_ballot cmd)) (msg_key msg) (cmd_seq cmd) (cmd_ballot cmd)]
                     else [] in
          (cmd_set_seq_ballot_status cmd interfering_seq (cmd_ballot cmd) KEPAXOS_CMD_STATUS_PRE_ACCEPTED, evs)
        else (cmd, []) in
      let committed := max_seq =? local_seq in
      let ke1 := ke_put_cmd ke (msg_key msg) cmd in
      (0, ke1, evs,
       Some (kepaxos_build_message (ke_me ke) KEPAXOS_MSG_TYPE_PRE_ACCEPT_RESPONSE 0 (cmd_ballot cmd)
               (msg_key msg) [] max_seq committed))
  end.

(** The vote bookkeeping of [kepaxos_handle_preaccept_response] (the block
    run under [cmd->lock]). *)
Definition preaccept_add_vote (cmd : kepaxos_cmd) (msg : kepaxos_msg) : kepaxos_cmd :=
  let votes := cmd_votes cmd ++ [mkvote (msg_peer msg) (msg_ballot msg) (msg_seq msg)] in
  let num_votes := (cmd_num_votes cmd + 1) mod 2 ^ 16 in
  let '(max_seq, max_seq_committed) :=
    if negb (msg_seq msg =? cmd_max_seq cmd) then
      let m := Z.max (cmd_max_seq cmd) (msg_seq msg) in
      (m, if negb (msg_committed msg =? 0) && (m =? msg_seq msg) then 1 else 0)
    else if negb (msg_committed msg =? 0) then (cmd_max_seq cmd, 1)
    else (cmd_max_seq cmd, cmd_max_seq_committed cmd) in
  let max_voter := if max_seq =? msg_seq msg then msg_peer msg else cmd_max_voter cmd in
  mkcmd (cmd_type cmd) (cmd_status cmd) (cmd_seq cmd) (cmd_key cmd) (cmd_data cmd) votes num_votes
        max_seq max_seq_committed max_voter (cmd_ballot cmd) (cmd_waiting cmd).

(** [kepaxos_handle_preaccept_response] *)
Definition kepaxos_handle_preaccept_response (ke : kepaxos) (cb : kepaxos_callbacks) (msg : kepaxos_msg)
  : Z * kepaxos * list ke_event :=
  match ht_get (ke_commands ke) (msg_key msg) with
  | None => (0, ke, [])
  | Some cmd =>
      if msg_ballot msg <? cmd_ballot cmd then (-1, ke, []) else
      if negb (status_eqb (cmd_status cmd) KEPAXOS_CMD_STATUS_PRE_ACCEPTED) then (-1, ke, []) else
      let cmd := preaccept_add_vote cmd msg in
      let ke1 := ke_put_cmd ke (msg_key msg) cmd in
      if cmd_num_votes cmd <? Z.quot (ke_num_peers ke) 2 then (0, ke1, []) else
      if (cmd_seq cmd >? cmd_max_seq cmd)
         || ((cmd_seq cmd =? cmd_max_seq cmd) && (cmd_max_seq_committed cmd =? 0))
      then (* commit (short path) *)
        kepaxos_commit (ke_del_cmd ke1 (msg_key msg)) cb cmd
      else (* long path *)
        let ballot := ke_ballot ke in
        let cmd := cmd_reset_votes cmd (wrap64 (cmd_max_seq cmd + 1)) ballot KEPAXOS_CMD_STATUS_ACCEPTED in
        let ke2 := ke_put_cmd ke1 (msg_key msg) cmd in
        let '(rc, evs) := kepaxos_send_accept ke2 cb ballot (msg_key msg) (cmd_seq cmd) in
        (rc, ke2, evs)
  end.

(** [kepaxos_handle_accept] *)
Definition kepaxos_handle_accept (ke : kepaxos) (cb : kepaxos_callbacks) (msg : kepaxos_msg)
  : Z * kepaxos * list ke_event * option buffer :=
  let '(local_seq, local_ballot) := kepaxos_last_seq_for_key (ke_log ke) (msg_key msg) in
  let found :=
    match ht_get (ke_commands ke) (msg_key msg) with
    | Some cmd =>
        if msg_ballot msg <? cmd_ballot cmd then None
        else if msg_seq msg <? cmd_seq cmd then Some (cmd, cmd_ballot cmd, cmd_seq cmd)
        else Some (cmd, msg_ballot msg, msg_seq msg)
    | None => Some (cmd_calloc (msg_key msg), msg_ballot msg, msg_seq msg)
    end in
  match found with
  | None => (0, ke, [], None)
  | Some (cmd, accepted_ballot, accepted_seq) =>
      let '(cmd, accepted_ballot, accepted_seq) :=
        if msg_seq msg >=? cmd_seq cmd then
          (cmd_set_seq_ballot_status cmd (msg_seq msg) (msg_ballot msg) KEPAXOS_CMD_STATUS_ACCEPTED,
           msg_ballot msg, msg_seq msg)
        else (cmd, accepted_ballot, accepted_seq) in
      let committed := accepted_seq =? local_seq in
      (0, ke_put_cmd ke (msg_key msg) cmd, [],
       Some (kepaxos_build_message (ke_me ke) KEPAXOS_MSG_TYPE_ACCEPT_RESPONSE 0 accepted_ballot
               (msg_key msg) [] accepted_seq committed))
  end.

(** The votes of [votes] that match [(seq, ballot)]: [count_ok]. *)
Definition count_ok (votes : list kepaxos_vote) (seq ballot : Z) : Z :=
  Z.of_nat (length (filter (fun v => (vote_seq v =? seq) && (vote_ballot v =? ballot)) votes)).

(** [kepaxos_handle_accept_response] *)
Definition kepaxos_handle_accept_response (ke : kepaxos) (cb : kepaxos_callbacks) (msg : kepaxos_msg)
  : Z * kepaxos * list ke_event :=
  match ht_get (ke_commands ke) (msg_key msg) with
  | None => (0, ke, [])
  | Some cmd =>
      if msg_ballot msg <? cmd_ballot cmd then (-1, ke, []) else
      if negb (status_eqb (cmd_status cmd) KEPAXOS_CMD_STATUS_ACCEPTED) then (-1, ke, []) else
      if (cmd_seq cmd =? msg_seq msg) && negb (msg_committed msg =? 0) then
        (* some replica has already committed this sequence: retry with seq + 1 *)
        let new_ballot := ke_ballot ke in
        let cmd := cmd_reset_votes cmd (wrap64 (cmd_seq cmd + 1)) new_ballot (cmd_status cmd) in
        let ke1 := ke_put_cmd ke (msg_key msg) cmd in
        let '(rc, evs) := kepaxos_send_accept ke1 cb new_ballot (msg_key msg) (cmd_seq cmd) in
        (rc, ke1, evs)
      else
      let votes := cmd_votes cmd ++ [mkvote (msg_peer msg) (msg_ballot msg) (msg_seq msg)] in
      let num_votes := (cmd_num_votes cmd + 1) mod 2 ^ 16 in
      let max_seq := Z.max (cmd_max_seq cmd) (msg_seq msg) in
      let max_voter := if max_seq =? msg_seq msg then msg_peer msg else cmd_max_voter cmd in
      let cmd := mkcmd (cmd_type cmd) (cmd_status cmd) (cmd_seq cmd) (cmd_key cmd) (cmd_data cmd)
                       votes num_votes max_seq (cmd_max_seq_committed cmd) max_voter
                       (cmd_ballot cmd) (cmd_waiting cmd) in
      let ok := count_ok votes (msg_seq msg) (msg_ballot msg) in
      if ok <? Z.quot (ke_num_peers ke) 2 then
        if num_votes >=? Z.quot (ke_num_peers ke) 2 then
          (* retry paxos with the current ballot *)
          let seq := if cmd_seq cmd <=? cmd_max_seq cmd then wrap64 (cmd_seq cmd + 1) else cmd_seq cmd in
          let new_ballot := ke_ballot ke in
          let cmd := cmd_reset_votes cmd seq new_ballot (cmd_status cmd) in
          let ke1 := ke_put_cmd ke (msg_key msg) cmd in
          let '(rc, evs) := kepaxos_send_accept ke1 cb new_ballot (msg_key msg) seq in
          (rc, ke1, evs)
        else (0, ke_put_cmd ke (msg_key msg) cmd, [])
      else
        (* accepted by a quorum *)
        kepaxos_commit (ke_del_cmd ke (msg_key msg)) cb cmd
  end.

(** [kepaxos_handle_commit].  The command removed from the table is freed
    unless a thread waits on it, which the model does not need to track; the
    commit callback's return value is ignored by the code. *)
Definition kepaxos_handle_commit (ke : kepaxos) (cb : kepaxos_callbacks) (msg : kepaxos_msg)
  : Z * kepaxos * list ke_event :=
  let cmdo := ht_get (ke_commands ke) (msg_key msg) in
  let ballot_too_old :=
    match cmdo with
    | Some cmd => (cmd_seq cmd =? msg_seq msg) && (cmd_ballot cmd >? msg_ballot msg)
    | None => false
    end in
  if ballot_too_old then (-1, ke, []) else
  let last_recorded_seq := fst (kepaxos_last_seq_for_key (ke_log ke) (msg_key msg)) in
  if msg_seq msg <? last_recorded_seq then (0, ke, []) else
  let ev := EvCommit (msg_ctype msg) (msg_key msg) (msg_data msg) 0 in
  let ke1 := ke_set_log ke (kepaxos_set_last_seq_for_key (ke_log ke) (msg_key msg)
                              (msg_ballot msg) (msg_seq msg)) in
  let ke2 := match cmdo with
             | Some cmd => if cmd_seq cmd <=? msg_seq msg then ke_del_cmd ke1 (msg_key msg) else ke1
             | None => ke1
             end in
  (0, ke2, [ev]).

(** [kepaxos_received_response] *)
Definition kepaxos_received_response (ke : kepaxos) (cb : kepaxos_callbacks) (res : buffer)
  : Z * kepaxos * list ke_event :=
  if Z.of_nat (length res) <? 16 then (-1, ke, []) else
  match kepaxos_parse_message res with
  | None => (-1, ke, [])
  | Some msg =>
      let ke := ke_set_ballot ke (update_ballot (ke_my_index ke) (ke_ballot ke) (msg_ballot msg)) in
      if msg_mtype msg =? msg_type_code KEPAXOS_MSG_TYPE_PRE_ACCEPT_RESPONSE then
        kepaxos_handle_preaccept_response ke cb msg
      else if msg_mtype msg =? msg_type_code KEPAXOS_MSG_TYPE_ACCEPT_RESPONSE then
        kepaxos_handle_accept_response ke cb msg
      else (-1, ke, [])
  end.

(** [kepaxos_received_command] *)
Definition kepaxos_received_command (ke : kepaxos) (cb : kepaxos_callbacks) (cmd : buffer)
  : Z * kepaxos * list ke_event * option buffer :=
  if Z.of_nat (length cmd) <? 16 then (-1, ke, [], None) else
  match kepaxos_parse_message cmd with
  | None => (-1, ke, [], None)
  | Some msg =>
      let ke := ke_set_ballot ke (update_ballot (ke_my_index ke) (ke_ballot ke) (msg_ballot msg)) in
      if msg_mtype msg =? msg_type_code KEPAXOS_MSG_TYPE_PRE_ACCEPT then
        kepaxos_handle_preaccept ke cb msg
      else if msg_mtype msg =? msg_type_code KEPAXOS_MSG_TYPE_ACCEPT then
        kepaxos_handle_accept ke cb msg
      else if msg_mtype msg =? msg_type_code KEPAXOS_MSG_TYPE_COMMIT then
        let '(rc, ke', evs) := kepaxos_handle_commit ke cb msg in (rc, ke', evs, None)
      else (-1, ke, [], None)
  end.

(** [kepaxos_get_diff]: [None] when [kepaxos_diff_from_ballot] is not called. *)
Definition kepaxos_get_diff (ke : kepaxos) (ballot : Z) : Z * option (list kepaxos_diff_item) :=
  if BALLOT_VALUE ballot >=? BALLOT_VALUE (kepaxos_max_ballot (ke_log ke)) then (-1, None)
  else let '(rc, items) := kepaxos_diff_from_ballot (ke_log ke) ballot in (rc, Some items).

(** [kepaxos_recovered]: the log takes the recovered [(ballot, seq)] for
    the key only when neither goes back. *)
Definition kepaxos_recovered (ke : kepaxos) (key : buffer) (ballot seq : Z) : Z * kepaxos :=
  let '(last_seq, last_ballot) := kepaxos_last_seq_for_key (ke_log ke) key in
  if (seq >=? last_seq) && (ballot >=? last_ballot) then
    (0, ke_set_log ke (kepaxos_set_last_seq_for_key (ke_log ke) key ballot seq))
  else (-1, ke).

(** [kepaxos_seq] *)
Definition kepaxos_seq (ke : kepaxos) (key : buffer) : Z :=
  fst (kepaxos_last_seq_for_key (ke_log ke) key).

(** [kepaxos_context_create] once [kepaxos_log_create(dbfile)] has opened
    [log]: no command in flight, the peers copied, the ballot initialised to
    [(1 << 8) | my_index] and then raised by
    [update_ballot(ke, BALLOT_VALUE(kepaxos_max_ballot(ke->log)) + 1)].  The
    timeout, the callbacks, the lock and the expirer thread are not part of
    the model. *)
Definition kepaxos_context_create (log : kepaxos_log) (peers : list buffer) (num_peers my_index : Z)
  : kepaxos :=
  let ke := mkke log [] peers num_peers my_index (Z.lor (Z.shiftl 1 8) my_index) in
  ke_set_ballot ke (update_ballot (ke_my_index ke) (ke_ballot ke)
                      (BALLOT_VALUE (kepaxos_max_ballot (ke_log ke)) + 1)).

(* ================================================================== *)
(** ** Concrete five-replica configurations *)

Definition node (i : Z) : buffer := [110; 111; 100; 101; 48 + i].

Definition five_peers : list buffer := [node 1; node 2; node 3; node 4; node 5].

Definition test_key : buffer := [116; 101; 115; 116; 95; 107; 101; 121].

Definition test_value : buffer := [118; 97; 108; 117; 101].

(** Callbacks that accept everything (the test suite's [send_callback]
    delivers messages itself; here the transport is left out). *)
Definition cbs_ok : kepaxos_callbacks := mkcbs (fun _ _ => 0) (fun _ _ _ _ => 0) (fun _ _ _ _ => 0).

(** Replica 0 with an empty log and one in-flight command for [test_key]. *)
Definition ke_with_cmd (cmd : kepaxos_cmd) : kepaxos :=
  mkke [] [(test_key, cmd)] five_peers 5 0 (ballot_init 0).

Definition leader_commits (evs : list ke_event) : bool :=
  existsb (fun e => match e with EvCommit _ _ _ l => l =? 1 | _ => false end) evs.

(** An Accept round of replica 0 for [test_key] at seq 3. *)
Definition accepted_cmd : kepaxos_cmd :=
  mkcmd 0 KEPAXOS_CMD_STATUS_ACCEPTED 3 test_key test_value [] 0 0 0 [] (ballot_init 0) false.

Definition accept_resp (from : Z) (seq : Z) (committed : bool) : buffer :=
  kepaxos_build_message (node from) KEPAXOS_MSG_TYPE_ACCEPT_RESPONSE 0 (ballot_init 0) test_key [] seq committed.

(** A PreAccept round of replica 0 for [test_key] at seq 6. *)
Definition preaccepted_cmd : kepaxos_cmd :=
  mkcmd 0 KEPAXOS_CMD_STATUS_PRE_ACCEPTED 6 test_key test_value [] 0 0 0 [] (ballot_init 0) false.

Definition preaccept_resp (from : Z) (seq : Z) (committed : bool) : buffer :=
  kepaxos_build_message (node from) KEPAXOS_MSG_TYPE_PRE_ACCEPT_RESPONSE 0 (ballot_init 0) test_key [] seq committed.

Definition parsed (b : buffer) : kepaxos_msg :=
  match kepaxos_parse_message b with Some m => m | None => mkmsg [] 0 0 0 0 0 [] [] end.

(* ================================================================== *)
(** * The ARC cache ([arc.c])

    A single-threaded embedding: the locks and the reference counts only
    matter under concurrency and are left out.  An object lives in the hash
    index under its key; each of the four lists holds the keys of its
    objects, most recent first (so the LRU entry, [head.prev], is the last
    one), together with the [size] counter the C code maintains.  [size_t]
    and [uint64_t] arithmetic wraps modulo [2^64]. *)

Inductive arc_state_id := ARC_MRUG | ARC_MRU | ARC_MFU | ARC_MFUG.

Definition arc_state_id_eqb (x y : arc_state_id) : bool :=
  match x, y with
  | ARC_MRUG, ARC_MRUG | ARC_MRU, ARC_MRU | ARC_MFU, ARC_MFU | ARC_MFUG, ARC_MFUG => true
  | _, _ => false
  end.

(** [arc_state_t] *)
Record arc_state := mkstate { st_size : Z; st_list : list buffer }.

(** [arc_object_t]: its state pointer, size and async flag. *)
Record arc_object := mkobj {
  obj_state : option arc_state_id;
  obj_size : Z;
  obj_key : buffer;
  obj_async : bool }.

(** [struct __arc] *)
Record arc := mkarc {
  arc_hash : list (buffer * arc_object);
  arc_c : Z; arc_p : Z;
  arc_mrug : arc_state; arc_mru : arc_state; arc_mfu : arc_state; arc_mfug : arc_state;
  arc_needs_rebalance : bool;
  arc_num_items : Z }.

(** [arc_ops_t]: [fetch] gives its return code and the size it reports. *)
Record arc_ops := mkops { ops_fetch : buffer -> Z * Z }.

(** The callbacks a step invokes. *)
Inductive arc_event :=
| ArcCreate (key : buffer)
| ArcFetch (key : buffer) (rc : Z)
| ArcEvict (key : buffer).

Definition arc_get_state (a : arc) (s : arc_state_id) : arc_state :=
  match s with
  | ARC_MRUG => arc_mrug a | ARC_MRU => arc_mru a
  | ARC_MFU => arc_mfu a | ARC_MFUG => arc_mfug a
  end.

Definition arc_set_state (a : arc) (s : arc_state_id) (st : arc_state) : arc :=
  let '(mkarc h c p g1 r f g2 nr n) := a in
  match s with
  | ARC_MRUG => mkarc h c p st r f g2 nr n
  | ARC_MRU => mkarc h c p g1 st f g2 nr n
  | ARC_MFU => mkarc h c p g1 r st g2 nr n
  | ARC_MFUG => mkarc h c p g1 r f st nr n
  end.

Definition arc_set_hash (a : arc) (h : list (buffer * arc_object)) : arc :=
  let '(mkarc _ c p g1 r f g2 nr n) := a in mkarc h c p g1 r f g2 nr n.

Definition arc_set_p (a : arc) (p : Z) : arc :=
  let '(mkarc h c _ g1 r f g2 nr n) := a in mkarc h c p g1 r f g2 nr n.

Definition arc_set_needs_rebalance (a : arc) (nr : bool) : arc :=
  let '(mkarc h c p g1 r f g2 _ n) := a in mkarc h c p g1 r f g2 nr n.

Definition arc_set_num_items (a : arc) (n : Z) : arc :=
  let '(mkarc h c p g1 r f g2 nr _) := a in mkarc h c p g1 r f g2 nr n.

(** [arc_list_remove] of the object with this key. *)
Definition arc_list_remove (l : list buffer) (key : buffer) : list buffer :=
  filter (fun k => negb (buf_eqb k key)) l.

(** [arc_state_lru]: the entry before the head. *)
Definition arc_state_lru (st : arc_state) : option buffer :=
  match rev (st_list st) with k :: _ => Some k | [] => None end.

(** [ARC_OBJ_BASE_SIZE]: [sizeof(arc_object_t)] is 140 on LP64 (the struct
    is packed: three pointers of the list head and state, [size], [ptr],
    [buf[32]], [key], [klen], a 40-byte [pthread_mutex_t], [node] and an
    [int]); a key longer than [buf] is allocated apart and counted. *)
Definition ARC_OBJ_BASE_SIZE (klen : Z) : Z := 140 + (if 32 <? klen then klen else 0).

Definition is_mru_or_mfu (s : option arc_state_id) : bool :=
  match s with Some ARC_MRU | Some ARC_MFU => true | _ => false end.

(** Write the object back to the index if its key is still there. *)
Definition hash_update (h : list (buffer * arc_object)) (key : buffer) (o : arc_object) :=
  match ht_get h key with Some _ => ht_set h key o | None => h end.

(** [arc_list_prepend] into a state and [ATOMIC_INCREASE] of its size. *)
Definition arc_state_push (a : arc) (s : arc_state_id) (key : buffer) (size : Z) : arc :=
  let st := arc_get_state a s in
  arc_set_state a s (mkstate (wrap64 (st_size st + size)) (key :: st_list st)).

(** [arc_move]: result code, the object as it ends up, the cache and the
    callbacks invoked. *)
Definition arc_move (a : arc) (ops : arc_ops) (obj : arc_object) (state : option arc_state_id)
  : Z * arc_object * arc * list arc_event :=
  let key := obj_key obj in
  let obj_state0 := obj_state obj in
  let a :=
    match obj_state0 with
    | Some s =>
        let a :=
          match state with
          | Some _ =>
              let mrug := st_size (arc_mrug a) in
              let mfug := st_size (arc_mfug a) in
              match s with
              | ARC_MRUG =>
                  arc_set_p a (Z.min (arc_c a)
                    (wrap64 (arc_p a + Z.max (if negb (mrug =? 0) then mfug / mrug else mfug / 2) 1)))
              | ARC_MFUG =>
                  arc_set_p a (Z.max 0
                    (wrap64 (arc_p a - Z.max (if negb (mfug =? 0) then mrug / mfug else mrug / 2) 1)))
              | _ => a
              end
          | None => a
          end in
        let st := arc_get_state a s in
        arc_set_state a s (mkstate (wrap64 (st_size st - obj_size obj)) (arc_list_remove (st_list st) key))
    | None => a
    end in
  let obj := mkobj None (obj_size obj) key (obj_async obj) in
  match state with
  | None =>
      let a := if is_mru_or_mfu obj_state0
               then arc_set_num_items a (wrap64 (arc_num_items a - 1)) else a in
      (-1, obj, a, [])
  | Some t =>
      match t with
      | ARC_MRUG | ARC_MFUG =>
          let obj := mkobj (Some t) (obj_size obj) key false in
          let a := arc_state_push a t key (obj_size obj) in
          let a := if is_mru_or_mfu obj_state0
                   then arc_set_num_items a (wrap64 (arc_num_items a - 1)) else a in
          (0, obj, arc_set_hash a (hash_update (arc_hash a) key obj), [ArcEvict key])
      | _ =>
          if negb (is_mru_or_mfu obj_state0) then
            let '(rc, size) := ops_fetch ops key in
            let ev := [ArcFetch key rc] in
            if rc =? 1 then (0, obj, arc_set_hash a (ht_delete (arc_hash a) key), ev)
            else if rc =? -1 then (-1, obj, arc_set_hash a (ht_delete (arc_hash a) key), ev)
            else if arc_c a <=? size then
              let a := arc_set_num_items a (wrap64 (arc_num_items a + 1)) in
              (0, obj, arc_set_hash a (hash_update (arc_hash a) key obj), ev)
            else
              let obj := mkobj (Some t) (wrap64 (ARC_OBJ_BASE_SIZE (Z.of_nat (length key)) + size))
                               key (obj_async obj) in
              let a := arc_state_push a t key (obj_size obj) in
              let a := arc_set_needs_rebalance a true in
              let a := arc_set_num_items a (wrap64 (arc_num_items a + 1)) in
              (0, obj, arc_set_hash a (hash_update (arc_hash a) key obj), ev)
          else
            let obj := mkobj (Some t) (obj_size obj) key (obj_async obj) in
            let a := arc_state_push a t key (obj_size obj) in
            let a := arc_set_needs_rebalance a true in
            (0, obj, arc_set_hash a (hash_update (arc_hash a) key obj), [])
      end
  end.

(** [arc_remove] *)
Definition arc_remove (a : arc) (ops : arc_ops) (key : buffer) : arc :=
  match ht_get (arc_hash a) key with
  | None => a
  | Some obj =>
      let a := arc_set_hash a (ht_delete (arc_hash a) key) in
      match obj_state obj with
      | Some _ => let '(_, _, a, _) := arc_move a ops obj None in a
      | None => a
      end
  end.

(** Moving the LRU entry of [from] to the ghost list [to] (first loop of
    [arc_balance]). *)
Definition arc_demote (a : arc) (ops : arc_ops) (from to : arc_state_id)
  : option (arc * list arc_event) :=
  match arc_state_lru (arc_get_state a from) with
  | Some k =>
      match ht_get (arc_hash a) k with
      | Some obj => let '(_, _, a, evs) := arc_move a ops obj (Some to) in Some (a, evs)
      | None => None
      end
  | None => None
  end.

(** The first loop of [arc_balance].  Each round takes one entry out of MRU
    or MFU, so [fuel] one above their number of entries lets it run to its
    end. *)
Fixpoint arc_balance_phase1 (fuel : nat) (a : arc) (ops : arc_ops) (size : Z)
  : arc * list arc_event :=
  match fuel with
  | O => (a, [])
  | S fuel =>
      if arc_c a <? wrap64 (st_size (arc_mru a) + st_size (arc_mfu a) + size) then
        let step :=
          if arc_p a <? st_size (arc_mru a) then arc_demote a ops ARC_MRU ARC_MRUG
          else if 0 <? st_size (arc_mfu a) then arc_demote a ops ARC_MFU ARC_MFUG
          else None in
        match step with
        | Some (a, evs) => let '(a, evs') := arc_balance_phase1 fuel a ops size in (a, evs ++ evs')
        | None => (a, [])
        end
      else (a, [])
  end.

(** The second loop of [arc_balance], removing ghost entries. *)
Fixpoint arc_balance_phase2 (fuel : nat) (a : arc) (ops : arc_ops) : arc :=
  match fuel with
  | O => a
  | S fuel =>
      if arc_c a <? wrap64 (st_size (arc_mrug a) + st_size (arc_mfug a)) then
        let victim :=
          if arc_p a <? st_size (arc_mfug a) then arc_state_lru (arc_mfug a)
          else if 0 <? st_size (arc_mrug a) then arc_state_lru (arc_mrug a)
          else None in
        match victim with
        | Some k => arc_balance_phase2 fuel (arc_remove a ops k) ops
        | None => a
        end
      else a
  end.

(** [arc_balance] *)
Definition arc_balance (a : arc) (ops : arc_ops) (size : Z) : arc * list arc_event :=
  if negb (arc_needs_rebalance a) then (a, []) else
  let '(a, evs) := arc_balance_phase1
                     (S (length (st_list (arc_mru a)) + length (st_list (arc_mfu a)))) a ops size in
  let a := arc_balance_phase2 (S (length (st_list (arc_mrug a)) + length (st_list (arc_mfug a)))) a ops in
  (arc_set_needs_rebalance a false, evs).

(** [arc_lookup] (synchronous callers, no other thread): the handle
    returned, the cache and the callbacks invoked. *)
Definition arc_lookup (a : arc) (ops : arc_ops) (key : buffer) (async : bool)
  : option arc_object * arc * list arc_event :=
  match ht_get (arc_hash a) key with
  | Some obj =>
      if async && obj_async obj then (Some obj, a, []) else
      let '(rc, obj, a, evs) := arc_move a ops obj (Some ARC_MFU) in
      if negb (rc =? 0) then (None, a, evs) else
      let '(a, evs') := arc_balance a ops (obj_size obj) in
      (Some obj, a, evs ++ evs')
  | None =>
      let obj := mkobj None (ARC_OBJ_BASE_SIZE (Z.of_nat (length key))) key async in
      let a := arc_set_hash a (ht_set (arc_hash a) key obj) in
      let '(rc, obj, a, evs) := arc_move a ops obj (Some ARC_MRU) in
      if rc =? 0 then
        let '(a, evs') := arc_balance a ops (obj_size obj) in
        (Some obj, a, ArcCreate key :: evs ++ evs')
      else (None, arc_set_hash a (ht_delete (arc_hash a) key), ArcCreate key :: evs)
  end.

(** [arc_create] *)
Definition arc_create (c : Z) : arc :=
  mkarc [] c (Z.shiftr c 1) (mkstate 0 []) (mkstate 0 []) (mkstate 0 []) (mkstate 0 []) false 0.

(** [arc_update_size]: a cached object (in MRU or MFU) gets the size
    [ARC_OBJ_BASE_SIZE + size] and its list's counter follows; any object
    found in the index flags the cache for a rebalance. *)
Definition arc_update_size (a : arc) (key : buffer) (size : Z) : arc :=
  match ht_get (arc_hash a) key with
  | None => a
  | Some obj =>
      let a :=
        match obj_state obj with
        | Some s =>
            if is_mru_or_mfu (Some s) then
              let st := arc_get_state a s in
              let sz := wrap64 (st_size st - obj_size obj) in
              let new_size := wrap64 (ARC_OBJ_BASE_SIZE (Z.of_nat (length (obj_key obj))) + size) in
              let a := arc_set_state a s (mkstate (wrap64 (sz + new_size)) (st_list st)) in
              arc_set_hash a (ht_set (arc_hash a) key
                                (mkobj (obj_state obj) new_size (obj_key obj) (obj_async obj)))
            else a
        | None => a
        end in
      arc_set_needs_rebalance a true
  end.

(** [arc_size]; [arc_num_items] reads the field of that name. *)
Definition arc_size (a : arc) : Z := wrap64 (st_size (arc_mru a) + st_size (arc_mfu a)).

(** A sequence of synchronous lookups. *)
Definition arc_run (a : arc) (ops : arc_ops) (keys : list buffer) : arc :=
  fold_left (fun a k => let '(_, a, _) := arc_lookup a ops k false in a) keys a.

(** A backend whose every fetch succeeds with a 100-byte value, so that an
    object (240 bytes) takes more than half of a 300-byte cache. *)
Definition ops_100 : arc_ops := mkops (fun _ => (0, 100)).

Definition key_A : buffer := [65].

Definition key_C : buffer := [67].

Definition key_D : buffer := [68].

Definition is_fetch (e : arc_event) : bool :=
  match e with ArcFetch _ _ => true | _ => false end.

(** Every object of the index is stored under its own key. *)
Definition arc_index_keyed (a : arc) : Prop :=
  Forall (fun kv => obj_key (snd kv) = fst kv) (arc_hash a).

(* ================================================================== *)
(** * Log helpers ([log.c]) *)

(** The copy loop of [shardcache_byte_escape]: every byte equal to [ch] or
    to [esc] is preceded by [esc] in the copy; [buflen] grows by one for each
    of them and [cnt] counts the bytes equal to [ch].  Both counters are
    [unsigned long]s bounded by the buffer size and never wrap. *)
Fixpoint byte_escape_loop (ch esc : Z) (p newbuf : list Z) (buflen cnt : Z) : list Z * Z * Z :=
  match p with
  | [] => (newbuf, buflen, cnt)
  | c :: p' =>
      let cnt := if c =? ch then cnt + 1 else cnt in
      let escape := (c =? ch) || (c =? esc) in
      let '(newbuf, buflen) := if escape then (newbuf ++ [esc], buflen + 1) else (newbuf, buflen) in
      byte_escape_loop ch esc p' (newbuf ++ [c]) buflen cnt
  end.

(** [shardcache_byte_escape]: the count of [ch] bytes, and [*dest] with
    [*newlen] when they are written (not for an empty buffer).  The
    allocations are taken to succeed. *)
Definition shardcache_byte_escape (ch esc : Z) (buffer : list Z) : Z * option (list Z * Z) :=
  let len := Z.of_nat (length buffer) in
  if len =? 0 then (0, None) else
  let '(newbuf, buflen, cnt) := byte_escape_loop ch esc buffer [] len 0 in
  (cnt, Some (newbuf, buflen)).

(** Reading an escaped buffer back: an [esc] byte stands for the byte after
    it. *)
Fixpoint byte_unescape (esc : Z) (l : list Z) : list Z :=
  match l with
  | [] => []
  | c :: l' =>
      if c =? esc then
        match l' with [] => [] | d :: l'' => d :: byte_unescape esc l'' end
      else c :: byte_unescape esc l'
  end.

Definition SHC_ESCAPE_BUFFER_SIZE_MAX : Z := 2 ^ 16.

(** A lower-case hexadecimal digit, as [printf]'s [%x] writes it. *)
Definition hex_digit (n : Z) : Z := if n <? 10 then 48 + n else 87 + n.

(** [sprintf(p, "%02x", (unsigned char)b)] *)
Definition hex2 (b : Z) : list Z :=
  let u := b mod 256 in [hex_digit (u / 16); hex_digit (u mod 16)].

(** [shardcache_hex_escape].  The result is a pointer to a per-thread
    static buffer; [old] is the string that buffer holds from the previous
    call.  When nothing is written ([include_prefix] off and no byte
    printed) the buffer keeps [old]; otherwise every [sprintf] leaves the
    string written so far NUL-terminated, and [strcat] appends to it. *)
Definition shardcache_hex_escape (old buf : list Z) (len limit : Z) (include_prefix : bool) : list Z :=
  let olen := if (0 <? limit) && (limit <? len) then limit else len in
  let olen := if SHC_ESCAPE_BUFFER_SIZE_MAX / 2 <? olen then SHC_ESCAPE_BUFFER_SIZE_MAX / 2 else olen in
  let written := (if include_prefix then [48; 120] else []) ++ flat_map hex2 (firstn (Z.to_nat olen) buf) in
  let str := if include_prefix || (0 <? olen) then written else old in
  if olen <? len then str ++ [46; 46; 46] else str.

(** The number of bytes [shardcache_hex_escape] prints. *)
Definition hex_escape_olen (len limit : Z) : Z :=
  Z.min (SHC_ESCAPE_BUFFER_SIZE_MAX / 2) (if (0 <? limit) && (limit <? len) then limit else len).



(* ================================================================== *)
(** * Proofs *)

(** Closes a side condition on concrete data: bounds, [is_u64] facts and
    [Forall]s of them over concrete lists. *)
Ltac cbn_arc := cbn -[ht_get ht_set ht_delete wrap64 ARC_OBJ_BASE_SIZE].

Ltac decide_hyp :=
  unfold is_u64; repeat (constructor || (vm_compute; first [reflexivity | discriminate])).

(** ** Machine integers and tables *)

Lemma buf_eqb_eq a b : buf_eqb a b = true <-> a = b.
Proof. unfold buf_eqb; destruct (list_eq_dec Z.eq_dec a b); split; congruence. Qed.

Lemma buf_eqb_refl a : buf_eqb a a = true.
Proof. apply buf_eqb_eq; reflexivity. Qed.

Section TableFacts.
Context {V : Type}.

Lemma ht_get_delete_same (t : list (buffer * V)) k : ht_get (ht_delete t k) k = None.
Proof.
  induction t as [|[k' v] t IH]; simpl; auto.
  destruct (buf_eqb k k') eqn:E; simpl; auto.
  rewrite E; auto.
Qed.

Lemma ht_get_set_same (t : list (buffer * V)) k v : ht_get (ht_set t k v) k = Some v.
Proof. unfold ht_set; simpl; rewrite buf_eqb_refl; reflexivity. Qed.

Lemma ht_get_delete_other (t : list (buffer * V)) k k' :
  buf_eqb k' k = false -> ht_get (ht_delete t k) k' = ht_get t k'.
Proof.
  intros Hne; induction t as [|[k0 v] t IH]; simpl; auto.
  destruct (buf_eqb k k0) eqn:E; simpl.
  - apply buf_eqb_eq in E; subst k0; rewrite Hne; exact IH.
  - rewrite IH; reflexivity.
Qed.

Lemma ht_get_set_other (t : list (buffer * V)) k k' v :
  buf_eqb k' k = false -> ht_get (ht_set t k v) k' = ht_get t k'.
Proof. intros Hne; unfold ht_set; simpl; rewrite Hne; apply ht_get_delete_other; auto. Qed.
End TableFacts.

(** ** Bit operations *)

Lemma testbit_small_high (k m n : Z) :
  0 <= m < 2 ^ k -> k <= n -> Z.testbit m n = false.
Proof.
  intros Hm Hn.
  destruct (Z.eq_dec m 0) as [->|Hm0]; [apply Z.bits_0|].
  apply Z.bits_above_log2; [lia|].
  apply Z.log2_lt_pow2; [lia|].
  assert (2 ^ k <= 2 ^ n) by (apply Z.pow_le_mono_r; lia).
  lia.
Qed.

(** [Z.lor (Z.shiftl x k) m] with [m] below [2^k] is an addition. *)
Lemma lor_shiftl_low (k x m : Z) :
  0 <= k -> 0 <= x -> 0 <= m < 2 ^ k ->
  Z.lor (Z.shiftl x k) m = x * 2 ^ k + m.
Proof.
  intros Hk Hx Hm.
  assert (Hd : Z.land (Z.shiftl x k) m = 0).
  { apply Z.bits_inj'; intros n Hn.
    rewrite Z.land_spec, Z.bits_0.
    destruct (Z.ltb_spec n k).
    - rewrite Z.shiftl_spec_low by lia; reflexivity.
    - rewrite (testbit_small_high k m n) by lia; apply andb_false_r. }
  rewrite <- Z.lxor_lor by exact Hd.
  rewrite <- Z.add_nocarry_lxor by exact Hd.
  rewrite Z.shiftl_mul_pow2 by lia; reflexivity.
Qed.

(** ** KePaxos wire format: [kepaxos_build_message] / [kepaxos_parse_message] *)

Lemma firstn_app_exact {A} (l1 l2 : list A) n : length l1 = n -> firstn n (l1 ++ l2) = l1.
Proof. intros <-. rewrite firstn_app, firstn_all, Nat.sub_diag; simpl; apply app_nil_r. Qed.

Lemma skipn_app_exact {A} (l1 l2 : list A) n : length l1 = n -> skipn n (l1 ++ l2) = l2.
Proof. intros <-. rewrite skipn_app, skipn_all, Nat.sub_diag; reflexivity. Qed.

Lemma length_put_be16 x : length (put_be16 x) = 2%nat.
Proof. reflexivity. Qed.

Lemma length_put_be32 x : length (put_be32 x) = 4%nat.
Proof. reflexivity. Qed.

Lemma get_put_be16 x : 0 <= x < 2 ^ 16 -> get_be16 (put_be16 x) = x.
Proof.
  intros Hx; unfold get_be16, put_be16; simpl.
  pose proof (Z_div_mod_eq_full x 256); lia.
Qed.

Lemma get_put_be32 x r : 0 <= x < 2 ^ 32 -> get_be32 (firstn 4 (put_be32 x ++ r)) = x.
Proof.
  intros Hx.
  rewrite firstn_app_exact by reflexivity.
  unfold get_be32, put_be32.
  rewrite firstn_app_exact, skipn_app_exact by reflexivity.
  rewrite !get_put_be16.
  - pose proof (Z_div_mod_eq_full x 65536); lia.
  - pose proof (Z.mod_pos_bound x 65536); lia.
  - split; [apply Z.div_pos; lia|]. apply Z.div_lt_upper_bound; lia.
Qed.

Lemma u64_split x :
  is_u64 x ->
  0 <= Z.shiftr x 32 < 2 ^ 32 /\ 0 <= Z.land x 4294967295 < 2 ^ 32 /\
  Z.lor (Z.shiftl (Z.shiftr x 32) 32) (Z.land x 4294967295) = x.
Proof.
  intros Hx; unfold is_u64 in Hx.
  change 4294967295 with (Z.ones 32).
  rewrite Z.land_ones, Z.shiftr_div_pow2 by lia.
  assert (H1 : 0 <= x / 2 ^ 32 < 2 ^ 32).
  { split; [apply Z.div_pos; lia|]. apply Z.div_lt_upper_bound; lia. }
  pose proof (Z.mod_pos_bound x (2 ^ 32)) as H2.
  split; [exact H1|]; split; [lia|].
  rewrite lor_shiftl_low by lia.
  pose proof (Z_div_mod_eq_full x (2 ^ 32)); lia.
Qed.

Example build_parse_small :
  kepaxos_parse_message
    (kepaxos_build_message [110; 49] KEPAXOS_MSG_TYPE_COMMIT 7 (2 ^ 40 + 258) [1; 2] [9] 77 true)
  = Some (mkmsg [110; 49; 0] (2 ^ 40 + 258) 77 5 7 1 [1; 2] [9]).
Proof. vm_compute. reflexivity. Qed.

(** C6 (amended): when the sender's length plus its terminating NUL fits
    the 16-bit length field, the ballot and seq are 64-bit values and the
    key and data lengths fit 32 bits, parsing the built message succeeds and
    gives back every field; the peer comes back as the sender with its NUL
    (the wire carries [strlen + 1] bytes). *)
Theorem kepaxos_build_parse_roundtrip sender mtype ctype ballot key data seq committed :
  Z.of_nat (length sender) + 1 < 2 ^ 16 ->
  is_u64 ballot -> is_u64 seq ->
  Z.of_nat (length key) < 2 ^ 32 -> Z.of_nat (length data) < 2 ^ 32 ->
  kepaxos_parse_message
    (kepaxos_build_message sender mtype ctype ballot key data seq committed)
  = Some (mkmsg (sender ++ [0]) ballot seq (msg_type_code mtype) ctype
                (if committed then 1 else 0) key data).
Proof.
  intros Hs Hb Hq Hk Hd.
  destruct (u64_split ballot Hb) as (Hbh & Hbl & Hbe).
  destruct (u64_split seq Hq) as (Hqh & Hql & Hqe).
  unfold kepaxos_build_message, kepaxos_parse_message; cbv zeta.
  set (ls := length sender); set (lk := length key); set (ld := length data).
  assert (Hsl : wrap16 (Z.of_nat ls + 1) = Z.of_nat ls + 1).
  { unfold wrap16; apply Z.mod_small; lia. }
  rewrite Hsl.
  set (tail := put_be32 (Z.shiftr ballot 32) ++ _).
  assert (Hlen : Z.of_nat (length (put_be16 (Z.of_nat ls + 1) ++ (sender ++ [0]) ++ tail))
                 = KEPAXOS_MSGLEN_MIN + (Z.of_nat ls + 1) + Z.of_nat lk + Z.of_nat ld).
  { subst tail; rewrite !length_app; simpl length.
    unfold KEPAXOS_MSGLEN_MIN; fold ls lk ld; lia. }
  rewrite Hlen.
  rewrite firstn_app_exact by reflexivity.
  rewrite skipn_app_exact by reflexivity.
  rewrite get_put_be16 by lia.
  assert (Hn : Z.to_nat (Z.of_nat ls + 1) = length (sender ++ [0])).
  { rewrite length_app; simpl; fold ls; lia. }
  rewrite Hn, firstn_app_exact, skipn_app_exact by reflexivity.
  subst tail.
  repeat first [ rewrite get_put_be32 by lia
               | rewrite skipn_app_exact by reflexivity
               | progress simpl nth ].
  rewrite Hbe, Hqe.
  assert (Hkey : (if Z.of_nat lk =? 0 then [] else firstn (Z.to_nat (Z.of_nat lk)) (key ++ put_be32 (Z.of_nat ld) ++ data)) = key
               /\ (if Z.of_nat lk =? 0 then key ++ put_be32 (Z.of_nat ld) ++ data
                   else skipn (Z.to_nat (Z.of_nat lk)) (key ++ put_be32 (Z.of_nat ld) ++ data))
                  = put_be32 (Z.of_nat ld) ++ data).
  { rewrite Nat2Z.id.
    destruct key as [|b key']; [split; reflexivity|].
    replace (Z.of_nat lk =? 0) with false by (symmetry; apply Z.eqb_neq; subst lk; simpl; lia).
    split; [apply firstn_app_exact | apply skipn_app_exact]; reflexivity. }
  destruct Hkey as [-> ->].
  rewrite get_put_be32 by lia.
  unfold KEPAXOS_MSGLEN_MIN.
  repeat match goal with
         | |- context [?a <? ?b] =>
             replace (a <? b) with false by (symmetry; apply Z.ltb_ge; lia)
         end.
  rewrite skipn_app_exact by reflexivity.
  rewrite Nat2Z.id.
  destruct data as [|b data']; [reflexivity|].
  replace (Z.of_nat ld =? 0) with false by (symmetry; apply Z.eqb_neq; subst ld; simpl; lia).
  unfold ld; rewrite firstn_all; reflexivity.
Qed.

(** C6 refuted: a message built for a 65535-byte sender does not parse. *)
Lemma kepaxos_build_parse_long_sender :
  kepaxos_parse_message
    (kepaxos_build_message long_sender KEPAXOS_MSG_TYPE_COMMIT 0 0 [] [] 0 false) = None.
Proof. vm_compute. reflexivity. Qed.

(** ** Ballots: [update_ballot] *)

Lemma ballot_value_bound b : is_u64 b -> 0 <= BALLOT_VALUE b < 2 ^ 56.
Proof.
  unfold is_u64, BALLOT_VALUE; intros Hb.
  rewrite Z.shiftr_div_pow2 by lia.
  split; [apply Z.div_pos; lia|]. apply Z.div_lt_upper_bound; lia.
Qed.

Lemma ballot_value_succ_nowrap b : is_u64 b -> wrap64 (BALLOT_VALUE b + 1) = BALLOT_VALUE b + 1.
Proof.
  intros Hb; pose proof (ballot_value_bound b Hb).
  unfold wrap64; apply Z.mod_small; lia.
Qed.

Lemma update_ballot_mono my_index cur b : is_u64 b -> cur <= update_ballot my_index cur b.
Proof.
  intros Hb; unfold update_ballot; cbv zeta.
  rewrite ballot_value_succ_nowrap by exact Hb.
  pose proof (ballot_value_bound b Hb).
  destruct (BALLOT_VALUE b =? 0); [lia|].
  replace (BALLOT_VALUE b + 1 =? 0) with false by (symmetry; apply Z.eqb_neq; lia).
  destruct (Z.ltb_spec cur (Z.lor (wrap64 (Z.shiftl (BALLOT_VALUE b + 1) 8)) my_index)); lia.
Qed.

Lemma ballot_init_value my_index : 0 <= my_index < 256 -> ballot_init my_index = 256 + my_index.
Proof. intros Hm; unfold ballot_init; rewrite lor_shiftl_low by (simpl; lia); reflexivity. Qed.

Lemma ballot_after_lower my_index bs :
  0 <= my_index < 256 -> Forall is_u64 bs -> 256 + my_index <= ballot_after my_index bs.
Proof.
  intros Hm Hbs; unfold ballot_after.
  assert (H0 : 256 + my_index <= ballot_init my_index) by (rewrite ballot_init_value; lia).
  revert H0; generalize (ballot_init my_index).
  induction Hbs as [|b bs Hb Hbs IH]; intros c Hc; simpl; [exact Hc|].
  apply IH. pose proof (update_ballot_mono my_index c b Hb); lia.
Qed.

(** C3: on an inbound ballot [b] with value part [v = b >> 8], a wrap of
    [v + 1] to 0 resets the local ballot to [(1 << 8) | my_index]; otherwise
    the local ballot becomes [((v + 1) << 8) | my_index] exactly when that is
    strictly greater, and the local ballot never decreases.  Stated for every
    local ballot the engine can hold: the initial one after any sequence of
    inbound ballots.  Since [v < 2^56], [v + 1] never wraps, so the first
    conjunct holds vacuously (the code's wrap branch would store [my_index]
    alone); a value part of 0 leaves the ballot as it is, which agrees with
    the rule because the local ballot is at least [(1 << 8) | my_index]. *)
Theorem update_ballot_spec my_index bs b :
  0 <= my_index < 256 -> Forall is_u64 bs -> is_u64 b ->
  let cur := ballot_after my_index bs in
  let v := BALLOT_VALUE b in
  let r := update_ballot my_index cur b in
  (wrap64 (v + 1) = 0 -> r = Z.lor (Z.shiftl 1 8) my_index) /\
  (wrap64 (v + 1) <> 0 ->
     let nb := Z.lor (wrap64 (Z.shiftl (wrap64 (v + 1)) 8)) my_index in
     (cur < nb -> r = nb) /\ (nb <= cur -> r = cur)) /\
  cur <= r.
Proof.
  intros Hm Hbs Hb cur v r.
  pose proof (ballot_after_lower my_index bs Hm Hbs) as Hcur; fold cur in Hcur.
  pose proof (ballot_value_bound b Hb) as Hv; fold v in Hv.
  pose proof (ballot_value_succ_nowrap b Hb) as Hw; fold v in Hw.
  split; [rewrite Hw; lia|].
  split; [|apply update_ballot_mono; exact Hb].
  intros _ nb; subst r; unfold update_ballot; fold v; cbv zeta.
  subst nb; rewrite !Hw.
  destruct (Z.eqb_spec v 0) as [Hv0|Hv0].
  - (* value 0: [kepaxos_reset_ballot] is a no-op, and the candidate
       [(1 << 8) | my_index] is not above the current ballot *)
    rewrite Hv0.
    change (Z.lor (wrap64 (Z.shiftl (0 + 1) 8)) my_index) with (ballot_init my_index).
    rewrite ballot_init_value by exact Hm.
    split; intros; lia.
  - replace (v + 1 =? 0) with false by (symmetry; apply Z.eqb_neq; lia).
    destruct (Z.ltb_spec cur (Z.lor (wrap64 (Z.shiftl (v + 1) 8)) my_index)); split; intros; lia.
Qed.

(** ** KePaxos engine *)

Lemma leader_commits_commit ke cb cmd :
  leader_commits (let '(_, _, evs) := kepaxos_commit ke cb cmd in evs) = true.
Proof.
  unfold kepaxos_commit; cbv zeta.
  destruct (cb_commit cb (cmd_type cmd) (cmd_key cmd) (cmd_data cmd) 1 =? 0); simpl; reflexivity.
Qed.

Lemma kepaxos_commit_commands ke cb cmd :
  ke_commands (let '(_, ke', _) := kepaxos_commit ke cb cmd in ke') = ke_commands ke.
Proof.
  unfold kepaxos_commit; cbv zeta.
  destruct (cb_commit cb (cmd_type cmd) (cmd_key cmd) (cmd_data cmd) 1 =? 0); reflexivity.
Qed.

Lemma kepaxos_commit_log ke cb cmd :
  cb_commit cb (cmd_type cmd) (cmd_key cmd) (cmd_data cmd) 1 = 0 ->
  kepaxos_last_seq_for_key (ke_log (let '(_, ke', _) := kepaxos_commit ke cb cmd in ke')) (cmd_key cmd)
  = (cmd_seq cmd, cmd_ballot cmd).
Proof.
  intros H; unfold kepaxos_commit; cbv zeta; rewrite H; simpl.
  unfold kepaxos_last_seq_for_key, kepaxos_set_last_seq_for_key; rewrite ht_get_set_same; reflexivity.
Qed.

Lemma leader_commits_send ke cb msg :
  leader_commits (snd (kepaxos_send_to_peers ke cb msg)) = false.
Proof. reflexivity. Qed.

(** C1 (as the code has it): an Accept response for a command in status
    ACCEPTED whose ballot is not above the response's (and which does not
    report the command's seq as already committed) commits the command —
    commit callback as leader, command removed from the table, log updated
    when the callback succeeds — exactly when the votes collected so far that
    match the response's [(seq, ballot)] number at least [num_peers / 2].
    The leader does not vote for itself, so with itself that is a strict
    majority of an odd peer set. *)
Theorem accept_response_commit_threshold ke cb msg cmd :
  ht_get (ke_commands ke) (msg_key msg) = Some cmd ->
  cmd_status cmd = KEPAXOS_CMD_STATUS_ACCEPTED ->
  cmd_ballot cmd <= msg_ballot msg ->
  ~ (cmd_seq cmd = msg_seq msg /\ msg_committed msg <> 0) ->
  let ok := count_ok (cmd_votes cmd ++ [mkvote (msg_peer msg) (msg_ballot msg) (msg_seq msg)])
                     (msg_seq msg) (msg_ballot msg) in
  let '(_, ke', evs) := kepaxos_handle_accept_response ke cb msg in
  (Z.quot (ke_num_peers ke) 2 <= ok ->
     leader_commits evs = true /\ ht_get (ke_commands ke') (msg_key msg) = None /\
     (cb_commit cb (cmd_type cmd) (cmd_key cmd) (cmd_data cmd) 1 = 0 ->
      kepaxos_last_seq_for_key (ke_log ke') (cmd_key cmd) = (cmd_seq cmd, cmd_ballot cmd))) /\
  (ok < Z.quot (ke_num_peers ke) 2 -> leader_commits evs = false).
Proof.
  intros Hget Hst Hb Hnc ok.
  unfold kepaxos_handle_accept_response; rewrite Hget, Hst; simpl status_eqb.
  replace (msg_ballot msg <? cmd_ballot cmd) with false by (symmetry; apply Z.ltb_ge; lia).
  replace ((cmd_seq cmd =? msg_seq msg) && negb (msg_committed msg =? 0)) with false
    by (destruct (Z.eqb_spec (cmd_seq cmd) (msg_seq msg)), (Z.eqb_spec (msg_committed msg) 0);
        simpl; tauto).
  cbv zeta; simpl negb; cbv iota; fold ok.
  destruct (Z.ltb_spec ok (Z.quot (ke_num_peers ke) 2)) as [Hlt|Hge].
  - destruct (_ >=? _).
    + destruct (kepaxos_send_accept _ _ _ _ _) as [rc evs] eqn:E.
      unfold kepaxos_send_accept in E; inversion E; subst.
      split; [intros; lia|reflexivity].
    + split; [intros; lia|reflexivity].
  - set (c := mkcmd _ _ _ _ _ _ _ _ _ _ _ _).
    pose proof (leader_commits_commit (ke_del_cmd ke (msg_key msg)) cb c) as H1.
    pose proof (kepaxos_commit_commands (ke_del_cmd ke (msg_key msg)) cb c) as H2.
    pose proof (kepaxos_commit_log (ke_del_cmd ke (msg_key msg)) cb c) as H3.
    destruct (kepaxos_commit _ cb c) as [[rc ke'] evs]; simpl in *.
    split; [|intros; lia]. intros _.
    split; [exact H1|]; split.
    + rewrite H2; apply ht_get_delete_same.
    + exact H3.
Qed.

(** C1 refuted: with five peers, two matching Accept responses commit the
    command, although [num_peers / 2 + 1 = 3]. *)
Lemma accept_response_commits_with_two_of_five :
  let '(_, ke1, evs1) :=
    kepaxos_received_response (ke_with_cmd accepted_cmd) cbs_ok (accept_resp 2 3 false) in
  let '(_, ke2, evs2) := kepaxos_received_response ke1 cbs_ok (accept_resp 3 3 false) in
  ke_num_peers ke1 = 5 /\
  leader_commits evs1 = false /\
  option_map (fun c => count_ok (cmd_votes c) 3 (ballot_init 0)) (ht_get (ke_commands ke1) test_key)
    = Some 1 /\
  leader_commits evs2 = true /\
  ht_get (ke_commands ke2) test_key = None /\
  1 + 1 < Z.quot 5 2 + 1.
Proof. vm_compute. repeat split; reflexivity. Qed.

(** C5: a PreAccept response with a lower seq than the highest one seen
    clears [max_seq_committed] even though the highest-seq response was
    marked committed; the fast path then commits at that seq. *)
Lemma preaccept_response_lower_seq_clears_committed :
  let c1 := preaccept_add_vote preaccepted_cmd (parsed (preaccept_resp 2 6 true)) in
  let c2 := preaccept_add_vote c1 (parsed (preaccept_resp 3 5 false)) in
  let '(_, ke1, evs1) :=
    kepaxos_received_response (ke_with_cmd preaccepted_cmd) cbs_ok (preaccept_resp 2 6 true) in
  let '(_, ke2, evs2) := kepaxos_received_response ke1 cbs_ok (preaccept_resp 3 5 false) in
  cmd_max_seq c1 = 6 /\ cmd_max_seq_committed c1 = 1 /\
  cmd_max_seq c2 = 6 /\ cmd_max_seq_committed c2 = 0 /\
  cmd_seq c2 = cmd_max_seq c2 /\
  leader_commits evs1 = false /\
  leader_commits evs2 = true /\
  kepaxos_last_seq_for_key (ke_log ke2) test_key = (6, ballot_init 0).
Proof. vm_compute. repeat split; reflexivity. Qed.

Lemma last_seq_set_same log key b s :
  kepaxos_last_seq_for_key (kepaxos_set_last_seq_for_key log key b s) key = (s, b).
Proof.
  unfold kepaxos_last_seq_for_key, kepaxos_set_last_seq_for_key.
  rewrite ht_get_set_same. reflexivity.
Qed.

Lemma too_old_false_excl cmd msg :
  ((cmd_seq cmd =? msg_seq msg) && (cmd_ballot cmd >? msg_ballot msg)) = false ->
  cmd_seq cmd = msg_seq msg -> msg_ballot msg < cmd_ballot cmd -> False.
Proof.
  intros Ht Hs Hb. rewrite Hs, Z.eqb_refl, Z.gtb_ltb in Ht. simpl in Ht.
  apply Z.ltb_ge in Ht. lia.
Qed.

(** C2 (amended): a Commit whose seq is below the logged seq for the key
    leaves the log untouched; a Commit for the seq of an in-flight command
    with a higher ballot is refused (-1) and changes nothing; any other
    Commit sets the logged seq for the key to the message's seq, which is
    at least, but not necessarily strictly above, the previous one. *)
Lemma handle_commit_log_seq ke cb msg :
  let old := fst (kepaxos_last_seq_for_key (ke_log ke) (msg_key msg)) in
  let newer_inflight := exists cmd, ht_get (ke_commands ke) (msg_key msg) = Some cmd /\
                          cmd_seq cmd = msg_seq msg /\ msg_ballot msg < cmd_ballot cmd in
  let '(rc, ke', _) := kepaxos_handle_commit ke cb msg in
  (msg_seq msg < old -> ke_log ke' = ke_log ke) /\
  (newer_inflight -> rc = -1 /\ ke' = ke) /\
  (old <= msg_seq msg -> ~ newer_inflight ->
   kepaxos_last_seq_for_key (ke_log ke') (msg_key msg) = (msg_seq msg, msg_ballot msg)).
Proof.
  cbv zeta. unfold kepaxos_handle_commit.
  destruct (ht_get (ke_commands ke) (msg_key msg)) as [cmd|] eqn:Hc.
  - destruct ((cmd_seq cmd =? msg_seq msg) && (cmd_ballot cmd >? msg_ballot msg)) eqn:Ht.
    + apply andb_true_iff in Ht as [H1 H2]. apply Z.eqb_eq in H1.
      rewrite Z.gtb_ltb in H2. apply Z.ltb_lt in H2.
      split; [auto|]. split; [auto|]. intros _ Hn. exfalso. apply Hn. eauto.
    + destruct (msg_seq msg <? fst (kepaxos_last_seq_for_key (ke_log ke) (msg_key msg))) eqn:Hs.
      * apply Z.ltb_lt in Hs. split; [auto|]. split.
        -- intros (c & Hc' & Hs' & Hb'). injection Hc' as <-.
           exfalso. exact (too_old_false_excl cmd msg Ht Hs' Hb').
        -- intros Hle. lia.
      * apply Z.ltb_ge in Hs. split; [intros; lia|]. split.
        -- intros (c & Hc' & Hs' & Hb'). injection Hc' as <-.
           exfalso. exact (too_old_false_excl cmd msg Ht Hs' Hb').
        -- intros _ _. destruct (cmd_seq cmd <=? msg_seq msg); apply last_seq_set_same.
  - destruct (msg_seq msg <? fst (kepaxos_last_seq_for_key (ke_log ke) (msg_key msg))) eqn:Hs.
    + apply Z.ltb_lt in Hs. split; [auto|]. split.
      * intros (c & Hc' & _). discriminate.
      * intros Hle. lia.
    + apply Z.ltb_ge in Hs. split; [intros; lia|]. split.
      * intros (c & Hc' & _). discriminate.
      * intros _ _. apply last_seq_set_same.
Qed.

(** C2 refuted: a Commit repeating the logged seq is applied, and the
    logged seq for the key stays 3 instead of growing. *)
Lemma handle_commit_same_seq_not_increasing :
  let ke := mkke [(test_key, (ballot_init 0, 3))] [] five_peers 5 0 (ballot_init 0) in
  let msg := mkmsg (node 2 ++ [0]) (ballot_init 0) 3 5 0 1 test_key test_value in
  let '(rc, ke', evs) := kepaxos_handle_commit ke cbs_ok msg in
  fst (kepaxos_last_seq_for_key (ke_log ke) test_key) = 3 /\
  rc = 0 /\ evs = [EvCommit 0 test_key test_value 0] /\
  fst (kepaxos_last_seq_for_key (ke_log ke') test_key) = 3.
Proof. vm_compute. repeat split; reflexivity. Qed.

Lemma wrap64_small x : 0 <= x < 2^64 -> wrap64 x = x.
Proof. intros H. unfold wrap64. apply Z.mod_small. exact H. Qed.

(** C7 (amended): while the seq counters stay below [2^64 - 1], the command
    gets seq [log.seq(key) + 1], raised to [prev.seq + 1] when an in-flight
    command [prev] for the key has [prev.seq >= log.seq(key) + 1]; it replaces
    [prev] in the command table, and the run returns 0 exactly when the log
    read after the wakeup holds a seq [>=] the command's seq, else -1. *)
Lemma run_command_seq ke cb type key data env
    (Hlast : 0 <= fst (kepaxos_last_seq_for_key (ke_log ke) key) < 2^64 - 1)
    (Hprev : forall prev, ht_get (ke_commands ke) key = Some prev ->
             0 <= cmd_seq prev < 2^64 - 1) :
  let last := fst (kepaxos_last_seq_for_key (ke_log ke) key) in
  let '(cmd, ke1) := kepaxos_command_create ke last type key data in
  let '(rc, ke2, _) := kepaxos_run_command ke cb type key data env in
  cmd_seq cmd = match ht_get (ke_commands ke) key with
                | Some prev => if last + 1 <=? cmd_seq prev then cmd_seq prev + 1 else last + 1
                | None => last + 1
                end /\
  cmd_status cmd = KEPAXOS_CMD_STATUS_PRE_ACCEPTED /\
  cmd_ballot cmd = ke_ballot ke /\
  ht_get (ke_commands ke1) key = Some cmd /\
  ke2 = env ke1 /\
  (rc = 0 <-> cmd_seq cmd <= fst (kepaxos_last_seq_for_key (ke_log ke2) key)) /\
  (rc = -1 <-> fst (kepaxos_last_seq_for_key (ke_log ke2) key) < cmd_seq cmd).
Proof.
  cbv zeta. unfold kepaxos_run_command.
  set (last := fst (kepaxos_last_seq_for_key (ke_log ke) key)) in *.
  destruct (kepaxos_command_create ke last type key data) as [cmd ke1] eqn:Ec.
  destruct (kepaxos_send_preaccept ke1 cb (cmd_ballot cmd) key (cmd_seq cmd)) as [r evs].
  unfold kepaxos_command_create in Ec. cbv zeta in Ec.
  rewrite (wrap64_small (last + 1)) in Ec by lia.
  assert (Hs : cmd_seq cmd = match ht_get (ke_commands ke) key with
                | Some prev => if last + 1 <=? cmd_seq prev then cmd_seq prev + 1 else last + 1
                | None => last + 1 end /\
               cmd_status cmd = KEPAXOS_CMD_STATUS_PRE_ACCEPTED /\
               cmd_ballot cmd = ke_ballot ke /\
               ht_get (ke_commands ke1) key = Some cmd).
  { destruct (ht_get (ke_commands ke) key) as [prev|] eqn:Hp.
    - specialize (Hprev prev eq_refl).
      rewrite (wrap64_small (cmd_seq prev + 1)) in Ec by lia.
      injection Ec as <- <-. unfold ke_set_commands; cbn [ke_commands cmd_set_seq_ballot_status cmd_seq cmd_status cmd_ballot]. rewrite ht_get_set_same.
      repeat split; try reflexivity.
      destruct (last + 1 <=? cmd_seq prev) eqn:Hl;
        [apply Z.leb_le in Hl | apply Z.leb_gt in Hl]; lia.
    - injection Ec as <- <-. unfold ke_set_commands; cbn [ke_commands cmd_set_seq_ballot_status cmd_seq cmd_status cmd_ballot]. rewrite ht_get_set_same. repeat split; reflexivity. }
  destruct Hs as (H1 & H2 & H3 & H4).
  split; [exact H1|]. split; [exact H2|]. split; [exact H3|]. split; [exact H4|].
  split; [reflexivity|].
  destruct (fst (kepaxos_last_seq_for_key (ke_log (env ke1)) key) >=? cmd_seq cmd) eqn:Hge.
  - apply Z.geb_le in Hge. split; split; intros; lia.
  - rewrite Z.geb_leb in Hge. apply Z.leb_gt in Hge. split; split; intros; lia.
Qed.

(** C7 refuted: an in-flight command with seq [2^64 - 1] (as a peer's Accept
    can leave behind) is not outrun: [prev.seq + 1] wraps to 0, so the new
    command keeps seq [log.seq + 1 = 6], below [prev.seq]. *)
Lemma command_create_prev_seq_wraps :
  let prev := mkcmd 0 KEPAXOS_CMD_STATUS_ACCEPTED (2^64 - 1) test_key [] [] 0 0 0 [] (ballot_init 1) false in
  let ke := mkke [(test_key, (ballot_init 0, 5))] [(test_key, prev)] five_peers 5 0 (ballot_init 0) in
  let '(cmd, ke1) := kepaxos_command_create ke 5 0 test_key test_value in
  5 + 1 <= cmd_seq prev /\ cmd_seq cmd = 6 /\ cmd_seq cmd < cmd_seq prev /\
  ht_get (ke_commands ke1) test_key = Some cmd.
Proof. vm_compute. repeat split; try reflexivity; discriminate. Qed.

(** C10: [kepaxos_get_diff] answers -1 with no items when the value part
    of the queried ballot is at least that of the log's maximum ballot;
    only when it is strictly below is the log's [diff_from_ballot] queried,
    and its result is returned. *)
Lemma get_diff_guard ke b :
  (BALLOT_VALUE (kepaxos_max_ballot (ke_log ke)) <= BALLOT_VALUE b ->
   kepaxos_get_diff ke b = (-1, None)) /\
  (BALLOT_VALUE b < BALLOT_VALUE (kepaxos_max_ballot (ke_log ke)) ->
   kepaxos_get_diff ke b = (fst (kepaxos_diff_from_ballot (ke_log ke) b),
                            Some (snd (kepaxos_diff_from_ballot (ke_log ke) b)))).
Proof.
  unfold kepaxos_get_diff. split; intros H.
  - replace (BALLOT_VALUE b >=? BALLOT_VALUE (kepaxos_max_ballot (ke_log ke))) with true
      by (symmetry; apply Z.geb_le; lia). reflexivity.
  - replace (BALLOT_VALUE b >=? BALLOT_VALUE (kepaxos_max_ballot (ke_log ke))) with false
      by (symmetry; rewrite Z.geb_leb; apply Z.leb_gt; lia).
    destruct (kepaxos_diff_from_ballot (ke_log ke) b); reflexivity.
Qed.

(** Witness of C1 on the five-replica engine: a matching vote from replica 2
    for the command accepted at seq 3. *)
Lemma accept_response_commit_threshold_witness :
  let ke := ke_with_cmd accepted_cmd in
  let msg := mkmsg (node 2 ++ [0]) (ballot_init 0) 3 4 0 0 test_key [] in
  let cmd := accepted_cmd in
  ht_get (ke_commands ke) (msg_key msg) = Some cmd /\
  cmd_status cmd = KEPAXOS_CMD_STATUS_ACCEPTED /\
  cmd_ballot cmd <= msg_ballot msg /\
  ~ (cmd_seq cmd = msg_seq msg /\ msg_committed msg <> 0) /\
  let ok := count_ok (cmd_votes cmd ++ [mkvote (msg_peer msg) (msg_ballot msg) (msg_seq msg)])
                     (msg_seq msg) (msg_ballot msg) in
  let '(_, ke', evs) := kepaxos_handle_accept_response ke cbs_ok msg in
  (Z.quot (ke_num_peers ke) 2 <= ok ->
     leader_commits evs = true /\ ht_get (ke_commands ke') (msg_key msg) = None /\
     (cb_commit cbs_ok (cmd_type cmd) (cmd_key cmd) (cmd_data cmd) 1 = 0 ->
      kepaxos_last_seq_for_key (ke_log ke') (cmd_key cmd) = (cmd_seq cmd, cmd_ballot cmd))) /\
  (ok < Z.quot (ke_num_peers ke) 2 -> leader_commits evs = false).
Proof.
  cbv zeta.
  split; [reflexivity|]. split; [reflexivity|]. split; [vm_compute; discriminate|].
  split; [vm_compute; intros [_ H]; apply H; reflexivity|].
  exact (accept_response_commit_threshold (ke_with_cmd accepted_cmd) cbs_ok
           (mkmsg (node 2 ++ [0]) (ballot_init 0) 3 4 0 0 test_key []) accepted_cmd
           eq_refl eq_refl ltac:(vm_compute; discriminate)
           ltac:(vm_compute; intros [_ H]; apply H; reflexivity)).
Defined.

(** Witness of C3: replica 1, fresh ballot [(1 << 8) | 1], inbound ballot
    [5 << 8]. *)
Lemma update_ballot_spec_witness :
  0 <= 1 < 256 /\ Forall is_u64 [] /\ is_u64 1280 /\
  let cur := ballot_after 1 [] in
  let v := BALLOT_VALUE 1280 in
  let r := update_ballot 1 cur 1280 in
  (wrap64 (v + 1) = 0 -> r = Z.lor (Z.shiftl 1 8) 1) /\
  (wrap64 (v + 1) <> 0 ->
     let nb := Z.lor (wrap64 (Z.shiftl (wrap64 (v + 1)) 8)) 1 in
     (cur < nb -> r = nb) /\ (nb <= cur -> r = cur)) /\
  cur <= r.
Proof.
  split; [lia|]. split; [constructor|]. split; [unfold is_u64; vm_compute; split; congruence|].
  exact (update_ballot_spec 1 [] 1280 ltac:(lia) (Forall_nil _)
           ltac:(unfold is_u64; vm_compute; split; congruence)).
Defined.

(** Witness of C6: a committed Commit from sender [hi] at ballot 256 and
    seq 7. *)
Lemma kepaxos_build_parse_roundtrip_witness :
  Z.of_nat (length [104; 105]) + 1 < 2 ^ 16 /\ is_u64 256 /\ is_u64 7 /\
  Z.of_nat (length test_key) < 2 ^ 32 /\ Z.of_nat (length test_value) < 2 ^ 32 /\
  kepaxos_parse_message
    (kepaxos_build_message [104; 105] KEPAXOS_MSG_TYPE_COMMIT 0 256 test_key test_value 7 true)
  = Some (mkmsg ([104; 105] ++ [0]) 256 7 (msg_type_code KEPAXOS_MSG_TYPE_COMMIT) 0
                (if true then 1 else 0) test_key test_value).
Proof.
  assert (H1 : Z.of_nat (length [104; 105]) + 1 < 2 ^ 16) by (vm_compute; reflexivity).
  assert (H2 : is_u64 256) by (unfold is_u64; vm_compute; split; congruence).
  assert (H3 : is_u64 7) by (unfold is_u64; vm_compute; split; congruence).
  assert (H4 : Z.of_nat (length test_key) < 2 ^ 32) by (vm_compute; reflexivity).
  assert (H5 : Z.of_nat (length test_value) < 2 ^ 32) by (vm_compute; reflexivity).
  exact (conj H1 (conj H2 (conj H3 (conj H4 (conj H5
    (kepaxos_build_parse_roundtrip [104; 105] KEPAXOS_MSG_TYPE_COMMIT 0 256 test_key
       test_value 7 true H1 H2 H3 H4 H5)))))).
Defined.

(** Witness of C7: logged seq 5, an in-flight command at seq 8, and a
    wakeup after which seq 9 is logged. *)
Lemma run_command_seq_witness :
  let prev := mkcmd 0 KEPAXOS_CMD_STATUS_ACCEPTED 8 test_key [] [] 0 0 0 [] (ballot_init 1) false in
  let ke := mkke [(test_key, (ballot_init 0, 5))] [(test_key, prev)] five_peers 5 0 (ballot_init 0) in
  let env := fun k => ke_set_log k (kepaxos_set_last_seq_for_key (ke_log k) test_key (ballot_init 0) 9) in
  (0 <= fst (kepaxos_last_seq_for_key (ke_log ke) test_key) < 2^64 - 1) /\
  (forall p, ht_get (ke_commands ke) test_key = Some p -> 0 <= cmd_seq p < 2^64 - 1) /\
  let last := fst (kepaxos_last_seq_for_key (ke_log ke) test_key) in
  let '(cmd, ke1) := kepaxos_command_create ke last 0 test_key test_value in
  let '(rc, ke2, _) := kepaxos_run_command ke cbs_ok 0 test_key test_value env in
  cmd_seq cmd = match ht_get (ke_commands ke) test_key with
                | Some prev => if last + 1 <=? cmd_seq prev then cmd_seq prev + 1 else last + 1
                | None => last + 1
                end /\
  cmd_status cmd = KEPAXOS_CMD_STATUS_PRE_ACCEPTED /\
  cmd_ballot cmd = ke_ballot ke /\
  ht_get (ke_commands ke1) test_key = Some cmd /\
  ke2 = env ke1 /\
  (rc = 0 <-> cmd_seq cmd <= fst (kepaxos_last_seq_for_key (ke_log ke2) test_key)) /\
  (rc = -1 <-> fst (kepaxos_last_seq_for_key (ke_log ke2) test_key) < cmd_seq cmd).
Proof.
  cbv zeta.
  assert (H1 : 0 <= fst (kepaxos_last_seq_for_key [(test_key, (ballot_init 0, 5))] test_key) < 2^64 - 1)
    by (vm_compute; split; congruence).
  assert (H2 : forall p, ht_get [(test_key, mkcmd 0 KEPAXOS_CMD_STATUS_ACCEPTED 8 test_key [] [] 0 0 0 []
                                             (ballot_init 1) false)] test_key = Some p ->
               0 <= cmd_seq p < 2^64 - 1).
  { intros p Hp. vm_compute in Hp. injection Hp as <-. vm_compute. split; congruence. }
  exact (conj H1 (conj H2 (run_command_seq
    (mkke [(test_key, (ballot_init 0, 5))]
       [(test_key, mkcmd 0 KEPAXOS_CMD_STATUS_ACCEPTED 8 test_key [] [] 0 0 0 [] (ballot_init 1) false)]
       five_peers 5 0 (ballot_init 0))
    cbs_ok 0 test_key test_value
    (fun k => ke_set_log k (kepaxos_set_last_seq_for_key (ke_log k) test_key (ballot_init 0) 9))
    H1 H2))).
Defined.

(** ** ARC cache *)

(** C4 (code bug): in a 300-byte cache ([p = 150]) whose objects take 240
    bytes, repeated lookups of one key alternate it between MFU and MFUG;
    each MFUG hit lowers [p] by one, and the hit at [p = 0] computes
    [p - 1] in [size_t]: [MAX(0, ...)] cannot catch the wrap, and [p]
    becomes [2^64 - 1 > C]. *)
Lemma arc_p_wraps_below_zero :
  let a0 := arc_create 300 in
  let a153 := arc_run a0 ops_100 (repeat key_A 153) in
  let a154 := arc_run a0 ops_100 (repeat key_A 154) in
  arc_p a0 = 150 /\ arc_c a0 = 300 /\
  arc_p a153 = 0 /\
  option_map obj_state (ht_get (arc_hash a153) key_A) = Some (Some ARC_MFUG) /\
  arc_p a154 = 2^64 - 1 /\
  arc_c a154 < arc_p a154.
Proof. vm_compute. repeat split; reflexivity. Qed.

(** C8 (code bug): after [p] has wrapped (C4), [arc_balance] no longer
    demotes MRU entries ([MRU.size > p] never holds) and MFU is empty, so a
    rebalance run to its end leaves [MRU.size + MFU.size = 480 > C = 300]. *)
Lemma arc_balance_leaves_cache_over_capacity :
  let a := arc_run (arc_create 300) ops_100 (repeat key_A 154 ++ [key_C]) in
  let obj := mkobj None (ARC_OBJ_BASE_SIZE (Z.of_nat (length key_D))) key_D false in
  let a1 := arc_set_hash a (ht_set (arc_hash a) key_D obj) in
  let '(rc, obj', a2, _) := arc_move a1 ops_100 obj (Some ARC_MRU) in
  let '(a3, _) := arc_balance a2 ops_100 (obj_size obj') in
  let '(_, a4, _) := arc_lookup a ops_100 key_D false in
  ht_get (arc_hash a) key_D = None /\
  rc = 0 /\ arc_needs_rebalance a2 = true /\
  arc_needs_rebalance a3 = false /\ a4 = a3 /\
  st_size (arc_mru a3) + st_size (arc_mfu a3) = 480 /\
  arc_c a3 < st_size (arc_mru a3) + st_size (arc_mfu a3).
Proof. vm_compute. repeat split; reflexivity. Qed.

Lemma ht_get_in {V} (t : list (buffer * V)) k v : ht_get t k = Some v -> In (k, v) t.
Proof.
  induction t as [|[k' v'] t IH]; simpl; [discriminate|].
  destruct (buf_eqb k k') eqn:E.
  - apply buf_eqb_eq in E; subst. intros H; injection H as <-. left; reflexivity.
  - intros H; right; auto.
Qed.

Lemma arc_hash_set_hash a h : arc_hash (arc_set_hash a h) = h.
Proof. destruct a; reflexivity. Qed.

Lemma arc_move_ghost_events a ops obj t :
  t = ARC_MRUG \/ t = ARC_MFUG ->
  let '(_, _, _, evs) := arc_move a ops obj (Some t) in evs = [ArcEvict (obj_key obj)].
Proof. intros [-> | ->]; reflexivity. Qed.

(** A fetch that fails is reported by [arc_move] with -1, after the key has
    left the index. *)
Lemma arc_move_fetch_fail a ops obj t :
  let '(rc, _, a', evs) := arc_move a ops obj t in
  forall k, In (ArcFetch k (-1)) evs ->
  rc = -1 /\ ht_get (arc_hash a') (obj_key obj) = None.
Proof.
  unfold arc_move; cbv zeta.
  destruct t as [[]|]; try (intros k [H|[]]; discriminate); [| | intros k []].
  all: destruct (is_mru_or_mfu (obj_state obj)); [intros k []|].
  all: destruct (ops_fetch ops (obj_key obj)) as [rc size].
  all: destruct (rc =? 1) eqn:E1; [intros k [H|[]]; injection H as _ ->; discriminate|].
  all: destruct (rc =? -1) eqn:E2;
         [intros _ _; split; [reflexivity|]; rewrite arc_hash_set_hash; apply ht_get_delete_same|].
  all: apply Z.eqb_neq in E2.
  all: destruct (_ <=? size); intros k [H|[]]; injection H as _ ->; congruence.
Qed.

Lemma arc_demote_no_fetch a ops from to a' evs :
  to = ARC_MRUG \/ to = ARC_MFUG ->
  arc_demote a ops from to = Some (a', evs) -> existsb is_fetch evs = false.
Proof.
  intros Ht. unfold arc_demote.
  destruct (arc_state_lru (arc_get_state a from)) as [k|]; [|discriminate].
  destruct (ht_get (arc_hash a) k) as [obj|]; [|discriminate].
  pose proof (arc_move_ghost_events a ops obj to Ht) as He.
  destruct (arc_move a ops obj (Some to)) as [[[rc o] a1] evs1].
  intros H; injection H as <- <-. subst evs1. reflexivity.
Qed.

Lemma arc_balance_phase1_no_fetch fuel a ops size :
  existsb is_fetch (snd (arc_balance_phase1 fuel a ops size)) = false.
Proof.
  revert a; induction fuel as [|fuel IH]; intros a; [reflexivity|]. simpl.
  destruct (arc_c a <? _); [|reflexivity].
  assert (Hstep : forall a' evs,
            (if arc_p a <? st_size (arc_mru a) then arc_demote a ops ARC_MRU ARC_MRUG
             else if 0 <? st_size (arc_mfu a) then arc_demote a ops ARC_MFU ARC_MFUG else None)
            = Some (a', evs) -> existsb is_fetch evs = false).
  { intros a' evs. destruct (arc_p a <? _); [apply arc_demote_no_fetch; auto|].
    destruct (0 <? _); [apply arc_demote_no_fetch; auto|discriminate]. }
  destruct (if arc_p a <? st_size (arc_mru a) then _ else _) as [[a' evs]|]; [|reflexivity].
  specialize (Hstep a' evs eq_refl). specialize (IH a').
  destruct (arc_balance_phase1 fuel a' ops size) as [a'' evs']. simpl in *.
  rewrite existsb_app, Hstep, IH. reflexivity.
Qed.

Lemma arc_balance_no_fetch a ops size :
  existsb is_fetch (snd (arc_balance a ops size)) = false.
Proof.
  unfold arc_balance. destruct (negb (arc_needs_rebalance a)); [reflexivity|].
  pose proof (arc_balance_phase1_no_fetch
                (S (length (st_list (arc_mru a)) + length (st_list (arc_mfu a)))) a ops size) as H.
  destruct (arc_balance_phase1 _ a ops size) as [a1 evs]. exact H.
Qed.

Lemma in_fetch_existsb k rc evs : In (ArcFetch k rc) evs -> existsb is_fetch evs = true.
Proof. intros H. apply existsb_exists. exists (ArcFetch k rc). auto. Qed.

(** C9: when the backend's [fetch] returns -1 during an [arc_lookup], the
    lookup returns no handle and the key is no longer in the hash index, so
    the next lookup of the key misses. *)
Theorem arc_lookup_fetch_failure a ops key async :
  arc_index_keyed a ->
  let '(h, a', evs) := arc_lookup a ops key async in
  (exists k, In (ArcFetch k (-1)) evs) ->
  h = None /\ ht_get (arc_hash a') key = None.
Proof.
  intros Hk. unfold arc_lookup.
  destruct (ht_get (arc_hash a) key) as [obj|] eqn:Hg.
  - assert (Hkey : obj_key obj = key).
    { apply ht_get_in in Hg. unfold arc_index_keyed in Hk.
      rewrite Forall_forall in Hk. exact (Hk _ Hg). }
    destruct (async && obj_async obj); [intros (k & [])|].
    pose proof (arc_move_fetch_fail a ops obj (Some ARC_MFU)) as Hf.
    destruct (arc_move a ops obj (Some ARC_MFU)) as [[[rc o] a1] evs].
    destruct (negb (rc =? 0)) eqn:Hrc.
    + intros (k & Hin). destruct (Hf k Hin) as [_ H]. rewrite Hkey in H. auto.
    + apply negb_false_iff, Z.eqb_eq in Hrc.
      pose proof (arc_balance_no_fetch a1 ops (obj_size o)) as Hb.
      destruct (arc_balance a1 ops (obj_size o)) as [a2 evs'].
      intros (k & Hin). apply in_app_or in Hin as [Hin|Hin].
      * destruct (Hf k Hin) as [H _]. lia.
      * simpl in Hb. rewrite (in_fetch_existsb _ _ _ Hin) in Hb. discriminate.
  - set (obj := mkobj None (ARC_OBJ_BASE_SIZE (Z.of_nat (length key))) key async).
    set (a0 := arc_set_hash a (ht_set (arc_hash a) key obj)).
    pose proof (arc_move_fetch_fail a0 ops obj (Some ARC_MRU)) as Hf.
    destruct (arc_move a0 ops obj (Some ARC_MRU)) as [[[rc o] a1] evs].
    destruct (rc =? 0) eqn:Hrc.
    + apply Z.eqb_eq in Hrc.
      pose proof (arc_balance_no_fetch a1 ops (obj_size o)) as Hb.
      destruct (arc_balance a1 ops (obj_size o)) as [a2 evs'].
      intros (k & [Hin|Hin]); [discriminate|].
      apply in_app_or in Hin as [Hin|Hin].
      * destruct (Hf k Hin) as [H _]. lia.
      * simpl in Hb. rewrite (in_fetch_existsb _ _ _ Hin) in Hb. discriminate.
    + intros _. split; [reflexivity|].
      rewrite arc_hash_set_hash. apply ht_get_delete_same.
Qed.

(** Witness of C9: the first lookup of a key in an empty cache whose
    backend fails. *)
Lemma arc_lookup_fetch_failure_witness :
  let ops := mkops (fun _ => (-1, 0)) in
  arc_index_keyed (arc_create 300) /\
  (let '(_, _, evs) := arc_lookup (arc_create 300) ops key_A false in
   In (ArcFetch key_A (-1)) evs) /\
  let '(h, a', evs) := arc_lookup (arc_create 300) ops key_A false in
  (exists k, In (ArcFetch k (-1)) evs) ->
  h = None /\ ht_get (arc_hash a') key_A = None.
Proof.
  cbv zeta.
  split; [constructor|]. split; [vm_compute; right; left; reflexivity|].
  exact (arc_lookup_fetch_failure (arc_create 300) (mkops (fun _ => (-1, 0))) key_A false
           (Forall_nil _)).
Defined.

(* ------------------------------------------------------------------ *)
(** ** Log helpers ([log.c]) *)

Definition escapes (ch esc c : Z) : bool := (c =? ch) || (c =? esc).

Definition escaped_copy (ch esc : Z) (p : list Z) : list Z :=
  flat_map (fun c => if escapes ch esc c then [esc; c] else [c]) p.

Lemma byte_escape_loop_spec ch esc p nb bl cnt :
  byte_escape_loop ch esc p nb bl cnt =
  (nb ++ escaped_copy ch esc p,
   bl + Z.of_nat (length (filter (escapes ch esc) p)),
   cnt + Z.of_nat (length (filter (fun c => c =? ch) p))).
Proof.
  unfold escaped_copy.
  revert nb bl cnt; induction p as [|c p IH]; intros nb bl cnt; simpl.
  - rewrite app_nil_r, !Z.add_0_r. reflexivity.
  - unfold escapes.
    destruct (c =? ch), (c =? esc); simpl; rewrite IH, <- !app_assoc; simpl;
      unfold escapes; rewrite ?Zpos_P_of_succ_nat;
      rewrite !pair_equal_spec; repeat split; lia.
Qed.

Lemma byte_unescape_escaped_copy ch esc p :
  byte_unescape esc (escaped_copy ch esc p) = p.
Proof.
  induction p as [|c p IH]; simpl; [reflexivity|].
  destruct (escapes ch esc c) eqn:He; simpl.
  - rewrite Z.eqb_refl. f_equal. exact IH.
  - unfold escapes in He. apply orb_false_iff in He as [_ He].
    rewrite He. f_equal. exact IH.
Qed.

Lemma escaped_copy_length ch esc p :
  length (escaped_copy ch esc p) = (length p + length (filter (escapes ch esc) p))%nat.
Proof.
  induction p as [|c p IH]; simpl; [reflexivity|].
  rewrite length_app, IH. destruct (escapes ch esc c); simpl; lia.
Qed.

(** [shardcache_byte_escape] on a non-empty buffer returns the number of
    [ch] bytes; the copy it hands back is [newlen] bytes long, [newlen] is
    the length of the input plus the number of bytes equal to [ch] or to
    [esc], and dropping each escape byte gives the input back. *)
Lemma shardcache_byte_escape_spec ch esc buffer (Hne : buffer <> []) :
  exists out,
    shardcache_byte_escape ch esc buffer =
      (Z.of_nat (length (filter (fun c => c =? ch) buffer)),
       Some (out, Z.of_nat (length out))) /\
    Z.of_nat (length out) =
      Z.of_nat (length buffer) + Z.of_nat (length (filter (fun c => (c =? ch) || (c =? esc)) buffer)) /\
    byte_unescape esc out = buffer.
Proof.
  exists (escaped_copy ch esc buffer).
  unfold shardcache_byte_escape.
  destruct (Z.of_nat (length buffer) =? 0) eqn:H0.
  { apply Z.eqb_eq in H0. destruct buffer; [congruence|simpl in H0; lia]. }
  rewrite byte_escape_loop_spec. simpl.
  rewrite escaped_copy_length. fold (escapes ch esc).
  split; [f_equal; f_equal; f_equal; lia|].
  split; [lia|apply byte_unescape_escaped_copy].
Qed.

Lemma shardcache_byte_escape_spec_witness :
  [1; 92; 2; 1] <> [] /\
  exists out,
    shardcache_byte_escape 1 92 [1; 92; 2; 1] =
      (Z.of_nat (length (filter (fun c => c =? 1) [1; 92; 2; 1])),
       Some (out, Z.of_nat (length out))) /\
    Z.of_nat (length out) =
      Z.of_nat (length [1; 92; 2; 1]) + Z.of_nat (length (filter (fun c => (c =? 1) || (c =? 92)) [1; 92; 2; 1])) /\
    byte_unescape 92 out = [1; 92; 2; 1].
Proof.
  split; [discriminate|].
  exact (shardcache_byte_escape_spec 1 92 [1; 92; 2; 1] ltac:(discriminate)).
Defined.







Lemma flat_map_hex2_length l : length (flat_map hex2 l) = (2 * length l)%nat.
Proof.
  induction l as [|b l IH]; simpl; [reflexivity|]. rewrite IH. lia.
Qed.

Lemma hex_escape_olen_unfold len limit :
  (let olen := if (0 <? limit) && (limit <? len) then limit else len in
   if SHC_ESCAPE_BUFFER_SIZE_MAX / 2 <? olen then SHC_ESCAPE_BUFFER_SIZE_MAX / 2 else olen)
  = hex_escape_olen len limit.
Proof.
  unfold hex_escape_olen. cbv zeta.
  destruct (_ <? _) eqn:H; [apply Z.ltb_lt in H|apply Z.ltb_ge in H]; lia.
Qed.

Lemma hex_escape_olen_le len limit : hex_escape_olen len limit <= 32768.
Proof. unfold hex_escape_olen. change (SHC_ESCAPE_BUFFER_SIZE_MAX / 2) with 32768. lia. Qed.


Lemma hex_escape_olen_nonpos len limit :
  hex_escape_olen len limit <= 0 -> hex_escape_olen len limit = len.
Proof.
  unfold hex_escape_olen. change (SHC_ESCAPE_BUFFER_SIZE_MAX / 2) with 32768.
  destruct ((0 <? limit) && (limit <? len)) eqn:H; [|lia].
  apply andb_true_iff in H as [H1 H2]. apply Z.ltb_lt in H1. lia.
Qed.

(** With no prefix and [len <= 0], [shardcache_hex_escape] writes nothing
    and returns its buffer as the previous call left it. *)
Lemma shardcache_hex_escape_stale old buf len limit (Hlen : len <= 0) :
  shardcache_hex_escape old buf len limit false = old.
Proof.
  unfold shardcache_hex_escape. rewrite hex_escape_olen_unfold.
  assert (Ho : hex_escape_olen len limit <= 0).
  { unfold hex_escape_olen.
    destruct ((0 <? limit) && (limit <? len)) eqn:H; [|lia].
    apply andb_true_iff in H as [H1 H2]. apply Z.ltb_lt in H1. apply Z.ltb_lt in H2. lia. }
  rewrite (proj2 (Z.ltb_ge 0 _) Ho). simpl.
  rewrite (hex_escape_olen_nonpos _ _ Ho), Z.ltb_irrefl. reflexivity.
Qed.

(** The string [shardcache_hex_escape] returns, with its terminating NUL,
    always fits its [SHC_ESCAPE_BUFFER_SIZE_MAX + 6]-byte buffer, given that
    the previous string did. *)
Lemma shardcache_hex_escape_fits old buf len limit include_prefix
  (Hold : Z.of_nat (length old) + 1 <= SHC_ESCAPE_BUFFER_SIZE_MAX + 6) :
  Z.of_nat (length (shardcache_hex_escape old buf len limit include_prefix)) + 1
    <= SHC_ESCAPE_BUFFER_SIZE_MAX + 6.
Proof.
  assert (Hb : Z.of_nat (length (flat_map hex2 (firstn (Z.to_nat (hex_escape_olen len limit)) buf))) <= 2 * Z.max 0 (hex_escape_olen len limit)).
  { rewrite flat_map_hex2_length, length_firstn. lia. }
  pose proof (hex_escape_olen_le len limit) as Hle.
  change (SHC_ESCAPE_BUFFER_SIZE_MAX + 6) with 65542 in *.
  destruct (bool_dec (include_prefix || (0 <? hex_escape_olen len limit)) true) as [Hw|Hw].
  - assert (Hw' : include_prefix = true \/ 0 < hex_escape_olen len limit).
    { apply orb_true_iff in Hw as [H|H]; [left; exact H|right; apply Z.ltb_lt; exact H]. }
    unfold shardcache_hex_escape. rewrite hex_escape_olen_unfold, Hw.
    revert Hb. generalize (flat_map hex2 (firstn (Z.to_nat (hex_escape_olen len limit)) buf)).
    intros d Hb.
    destruct include_prefix, (hex_escape_olen len limit <? len);
      rewrite ?length_app; cbn [length]; lia.
  - apply not_true_is_false, orb_false_iff in Hw as [-> Hw]. apply Z.ltb_ge in Hw.
    unfold shardcache_hex_escape. rewrite hex_escape_olen_unfold.
    rewrite (proj2 (Z.ltb_ge 0 _) Hw). simpl.
    rewrite (hex_escape_olen_nonpos _ _ Hw), Z.ltb_irrefl. exact Hold.
Qed.


Lemma shardcache_hex_escape_stale_witness :
  0 <= 0 /\ shardcache_hex_escape [49; 50] [] 0 0 false = [49; 50].
Proof.
  split; [lia|]. exact (shardcache_hex_escape_stale [49; 50] [] 0 0 ltac:(lia)).
Defined.

Lemma shardcache_hex_escape_fits_witness :
  Z.of_nat (length [49; 50]) + 1 <= SHC_ESCAPE_BUFFER_SIZE_MAX + 6 /\
  Z.of_nat (length (shardcache_hex_escape [49; 50] [1; 2] 2 0 true)) + 1
    <= SHC_ESCAPE_BUFFER_SIZE_MAX + 6.
Proof.
  split; [vm_compute; discriminate|].
  exact (shardcache_hex_escape_fits [49; 50] [1; 2] 2 0 true ltac:(vm_compute; discriminate)).
Defined.

(* ------------------------------------------------------------------ *)
(** ** KePaxos: recovery, context creation and the replica handlers *)

(** [kepaxos_recovered] stores the recovered [(ballot, seq)] of the key and
    returns 0 exactly when neither is below what the log holds; otherwise it
    returns -1 and changes nothing.  Other keys are untouched, and the seq
    [kepaxos_seq] reports for any key never decreases. *)
Lemma kepaxos_recovered_spec ke key ballot seq :
  let '(rc, ke') := kepaxos_recovered ke key ballot seq in
  let '(last_seq, last_ballot) := kepaxos_last_seq_for_key (ke_log ke) key in
  (rc = 0 <-> last_seq <= seq /\ last_ballot <= ballot) /\
  (rc = 0 -> kepaxos_last_seq_for_key (ke_log ke') key = (seq, ballot) /\ kepaxos_seq ke' key = seq) /\
  (rc <> 0 -> rc = -1 /\ ke' = ke) /\
  (forall k, buf_eqb k key = false ->
     kepaxos_last_seq_for_key (ke_log ke') k = kepaxos_last_seq_for_key (ke_log ke) k) /\
  (forall k, kepaxos_seq ke k <= kepaxos_seq ke' k) /\
  ke_commands ke' = ke_commands ke /\ ke_ballot ke' = ke_ballot ke.
Proof.
  unfold kepaxos_recovered.
  destruct (kepaxos_last_seq_for_key (ke_log ke) key) as [ls lb] eqn:Hl.
  destruct ((seq >=? ls) && (ballot >=? lb)) eqn:Hc.
  - apply andb_true_iff in Hc as [H1 H2]. apply Z.geb_le in H1. apply Z.geb_le in H2.
    assert (Hk : forall k, buf_eqb k key = false ->
              kepaxos_last_seq_for_key (kepaxos_set_last_seq_for_key (ke_log ke) key ballot seq) k
              = kepaxos_last_seq_for_key (ke_log ke) k).
    { intros k Hk. unfold kepaxos_last_seq_for_key, kepaxos_set_last_seq_for_key.
      rewrite ht_get_set_other by exact Hk. reflexivity. }
    assert (Hs : kepaxos_last_seq_for_key (kepaxos_set_last_seq_for_key (ke_log ke) key ballot seq) key
                 = (seq, ballot)).
    { unfold kepaxos_last_seq_for_key, kepaxos_set_last_seq_for_key.
      rewrite ht_get_set_same. reflexivity. }
    unfold kepaxos_seq, ke_set_log; cbn [ke_log ke_commands ke_ballot].
    split; [split; [intros _; lia|reflexivity]|].
    split; [intros _; rewrite Hs; split; reflexivity|].
    split; [intros H; congruence|].
    split; [exact Hk|].
    split; [|split; reflexivity].
    intros k.
    destruct (buf_eqb k key) eqn:E.
    + apply buf_eqb_eq in E; subst k. rewrite Hs, Hl. simpl. exact H1.
    + rewrite Hk by exact E. lia.
  - split; [split; [discriminate|]|].
    { intros [H1 H2]. apply Z.geb_le in H1. apply Z.geb_le in H2.
      rewrite H1, H2 in Hc. discriminate. }
    split; [discriminate|].
    split; [intros _; split; reflexivity|].
    split; [reflexivity|]. split; [intros; lia|]. split; reflexivity.
Qed.

Lemma kepaxos_max_ballot_u64 log :
  Forall (fun it => is_u64 (fst (snd it))) log -> is_u64 (kepaxos_max_ballot log).
Proof.
  unfold is_u64. induction 1 as [|it log Hit Hlog IH]; simpl; [lia|]. lia.
Qed.

(** [kepaxos_context_create] starts with no command in flight and the
    ballot [((((v + 1) >> 8) + 1) << 8) | my_index], [v] the value part of
    the log's largest ballot: [update_ballot] shifts the value it is given
    once more.  So a log whose ballots all have a value part below 255
    leaves the starting ballot at [(1 << 8) | my_index]. *)
Lemma kepaxos_context_create_ballot log peers num_peers my_index
  (Hi : 0 <= my_index < 256) (Hlog : Forall (fun it => is_u64 (fst (snd it))) log) :
  let ke := kepaxos_context_create log peers num_peers my_index in
  let v := BALLOT_VALUE (kepaxos_max_ballot log) in
  ke_ballot ke = Z.lor (Z.shiftl (Z.shiftr (v + 1) 8 + 1) 8) my_index /\
  (v < 255 -> ke_ballot ke = Z.lor (Z.shiftl 1 8) my_index) /\
  ke_log ke = log /\ ke_commands ke = [] /\ ke_peers ke = peers /\ ke_my_index ke = my_index.
Proof.
  intros ke v.
  pose proof (ballot_value_bound _ (kepaxos_max_ballot_u64 log Hlog)) as Hv; fold v in Hv.
  assert (Hw : 0 <= Z.shiftr (v + 1) 8 <= 2 ^ 48).
  { rewrite Z.shiftr_div_pow2 by lia.
    split; [apply Z.div_pos; lia|]. apply Z.div_le_upper_bound; lia. }
  assert (Hb : ke_ballot ke = Z.lor (Z.shiftl (Z.shiftr (v + 1) 8 + 1) 8) my_index).
  { subst ke. unfold kepaxos_context_create, ke_set_ballot.
    cbn [ke_ballot ke_my_index ke_log]. fold v.
    change (Z.shiftr (v + 1) 8) with (BALLOT_VALUE (v + 1)) in *.
    set (w := BALLOT_VALUE (v + 1)) in *.
    unfold update_ballot. fold w. cbv zeta.
    rewrite (wrap64_small (w + 1)) by lia.
    rewrite (lor_shiftl_low 8 1) by (simpl; lia).
    destruct (Z.eqb_spec w 0) as [H0|H0].
    - rewrite H0. rewrite lor_shiftl_low by (simpl; lia). reflexivity.
    - replace (w + 1 =? 0) with false by (symmetry; apply Z.eqb_neq; lia).
      assert (Hs : wrap64 (Z.shiftl (w + 1) 8) = Z.shiftl (w + 1) 8).
      { rewrite Z.shiftl_mul_pow2 by lia. apply wrap64_small. simpl; lia. }
      rewrite Hs, lor_shiftl_low by (simpl; lia).
      destruct (Z.ltb_spec (1 * 2 ^ 8 + my_index) ((w + 1) * 2 ^ 8 + my_index)); [reflexivity|].
      change (2 ^ 8) with 256 in *. lia. }
  split; [exact Hb|].
  split.
  { intros Hlt. rewrite Hb. f_equal. f_equal.
    rewrite Z.shiftr_div_pow2 by lia. rewrite Z.div_small by (simpl; lia). reflexivity. }
  repeat split.
Qed.

Lemma kepaxos_context_create_ballot_witness :
  (0 <= 0 < 256) /\ Forall (fun it => is_u64 (fst (snd it))) [(test_key, (1280, 3))] /\
  let ke := kepaxos_context_create [(test_key, (1280, 3))] five_peers 5 0 in
  let v := BALLOT_VALUE (kepaxos_max_ballot [(test_key, (1280, 3))]) in
  ke_ballot ke = Z.lor (Z.shiftl (Z.shiftr (v + 1) 8 + 1) 8) 0 /\
  (v < 255 -> ke_ballot ke = Z.lor (Z.shiftl 1 8) 0) /\
  ke_log ke = [(test_key, (1280, 3))] /\ ke_commands ke = [] /\ ke_peers ke = five_peers /\ ke_my_index ke = 0.
Proof.
  assert (Hl : Forall (fun it => is_u64 (fst (snd it))) [(test_key, (1280, 3))]).
  { constructor; [unfold is_u64; simpl; lia|constructor]. }
  split; [lia|]. split; [exact Hl|].
  exact (kepaxos_context_create_ballot [(test_key, (1280, 3))] five_peers 5 0 ltac:(lia) Hl).
Defined.

(** Parsing a built message gives its fields back (the peer with its NUL). *)
Lemma parse_build_message sender mtype ctype ballot key data seq committed :
  Z.of_nat (length sender) + 1 < 2 ^ 16 ->
  is_u64 ballot -> is_u64 seq ->
  Z.of_nat (length key) < 2 ^ 32 -> Z.of_nat (length data) < 2 ^ 32 ->
  kepaxos_parse_message
    (kepaxos_build_message sender mtype ctype ballot key data seq committed)
  = Some (mkmsg (sender ++ [0]) ballot seq (msg_type_code mtype) ctype
                (if committed then 1 else 0) key data).
Proof.
  intros Hs Hb Hq Hk Hd.
  destruct (u64_split ballot Hb) as (Hbh & Hbl & Hbe).
  destruct (u64_split seq Hq) as (Hqh & Hql & Hqe).
  unfold kepaxos_build_message, kepaxos_parse_message; cbv zeta.
  set (ls := length sender); set (lk := length key); set (ld := length data).
  assert (Hsl : wrap16 (Z.of_nat ls + 1) = Z.of_nat ls + 1).
  { unfold wrap16; apply Z.mod_small; lia. }
  rewrite Hsl.
  set (tail := put_be32 (Z.shiftr ballot 32) ++ _).
  assert (Hlen : Z.of_nat (length (put_be16 (Z.of_nat ls + 1) ++ (sender ++ [0]) ++ tail))
                 = KEPAXOS_MSGLEN_MIN + (Z.of_nat ls + 1) + Z.of_nat lk + Z.of_nat ld).
  { subst tail; rewrite !length_app; simpl length.
    unfold KEPAXOS_MSGLEN_MIN; fold ls lk ld; lia. }
  rewrite Hlen.
  rewrite firstn_app_exact by reflexivity.
  rewrite skipn_app_exact by reflexivity.
  rewrite get_put_be16 by lia.
  assert (Hn : Z.to_nat (Z.of_nat ls + 1) = length (sender ++ [0])).
  { rewrite length_app; simpl; fold ls; lia. }
  rewrite Hn, firstn_app_exact, skipn_app_exact by reflexivity.
  subst tail.
  repeat first [ rewrite get_put_be32 by lia
               | rewrite skipn_app_exact by reflexivity
               | progress simpl nth ].
  rewrite Hbe, Hqe.
  assert (Hkey : (if Z.of_nat lk =? 0 then [] else firstn (Z.to_nat (Z.of_nat lk)) (key ++ put_be32 (Z.of_nat ld) ++ data)) = key
               /\ (if Z.of_nat lk =? 0 then key ++ put_be32 (Z.of_nat ld) ++ data
                   else skipn (Z.to_nat (Z.of_nat lk)) (key ++ put_be32 (Z.of_nat ld) ++ data))
                  = put_be32 (Z.of_nat ld) ++ data).
  { rewrite Nat2Z.id.
    destruct key as [|b key']; [split; reflexivity|].
    replace (Z.of_nat lk =? 0) with false by (symmetry; apply Z.eqb_neq; subst lk; simpl; lia).
    split; [apply firstn_app_exact | apply skipn_app_exact]; reflexivity. }
  destruct Hkey as [-> ->].
  rewrite get_put_be32 by lia.
  unfold KEPAXOS_MSGLEN_MIN.
  repeat match goal with
         | |- context [?a <? ?b] =>
             replace (a <? b) with false by (symmetry; apply Z.ltb_ge; lia)
         end.
  rewrite skipn_app_exact by reflexivity.
  rewrite Nat2Z.id.
  destruct data as [|b data']; [reflexivity|].
  replace (Z.of_nat ld =? 0) with false by (symmetry; apply Z.eqb_neq; subst ld; simpl; lia).
  unfold ld; rewrite firstn_all; reflexivity.
Qed.

Lemma last_seq_u64 log key :
  Forall (fun it => is_u64 (snd (snd it))) log -> is_u64 (fst (kepaxos_last_seq_for_key log key)).
Proof.
  intros Hl. unfold kepaxos_last_seq_for_key.
  destruct (ht_get log key) as [[b s]|] eqn:E; simpl; [|unfold is_u64; lia].
  apply ht_get_in in E. rewrite Forall_forall in Hl. exact (Hl _ E).
Qed.

Lemma table_cmd_u64 (t : list (buffer * kepaxos_cmd)) key c (f : kepaxos_cmd -> Z) :
  Forall (fun kc => is_u64 (f (snd kc))) t -> ht_get t key = Some c -> is_u64 (f c).
Proof.
  intros Ht E. apply ht_get_in in E. rewrite Forall_forall in Ht. exact (Ht _ E).
Qed.

(** A replica answers a PreAccept unless its log already holds the
    proposed [(seq, ballot)] for the key or its command for the key has a
    higher ballot; then it returns -1 and changes nothing.  Otherwise it
    keeps a command for the key at the proposer's ballot and replies with a
    PRE_ACCEPT_RESPONSE from itself, at that ballot, with the largest of the
    proposed seq, the logged seq and the seq of its own command, flagged
    committed exactly when that largest seq is the logged one. *)
Lemma kepaxos_handle_preaccept_reply ke cb msg
  (Hme : Z.of_nat (length (ke_me ke)) + 1 < 2 ^ 16)
  (Hb : is_u64 (msg_ballot msg)) (Hs : is_u64 (msg_seq msg))
  (Hk : Z.of_nat (length (msg_key msg)) < 2 ^ 32)
  (Hlog : Forall (fun it => is_u64 (snd (snd it))) (ke_log ke))
  (Hcmds : Forall (fun kc => is_u64 (cmd_seq (snd kc))) (ke_commands ke)) :
  let '(local_seq, local_ballot) := kepaxos_last_seq_for_key (ke_log ke) (msg_key msg) in
  let cur := ht_get (ke_commands ke) (msg_key msg) in
  let cur_seq := match cur with Some c => cmd_seq c | None => 0 end in
  let max_seq := Z.max (msg_seq msg) (Z.max local_seq cur_seq) in
  let refused := (local_seq = msg_seq msg /\ local_ballot = msg_ballot msg) \/
                 (exists c, cur = Some c /\ msg_ballot msg < cmd_ballot c) in
  let '(rc, ke', evs, resp) := kepaxos_handle_preaccept ke cb msg in
  (refused -> rc = -1 /\ ke' = ke /\ evs = [] /\ resp = None) /\
  (~ refused ->
     rc = 0 /\
     (exists c', ht_get (ke_commands ke') (msg_key msg) = Some c' /\ cmd_ballot c' = msg_ballot msg) /\
     exists r, resp = Some r /\
       kepaxos_parse_message r =
         Some (mkmsg (ke_me ke ++ [0]) (msg_ballot msg) max_seq
                 (msg_type_code KEPAXOS_MSG_TYPE_PRE_ACCEPT_RESPONSE) 0
                 (if max_seq =? local_seq then 1 else 0) (msg_key msg) [])).
Proof.
  pose proof (last_seq_u64 _ (msg_key msg) Hlog) as Hls.
  unfold kepaxos_handle_preaccept.
  destruct (kepaxos_last_seq_for_key (ke_log ke) (msg_key msg)) as [ls lb] eqn:Hl.
  simpl in Hls. cbv zeta.
  destruct ((ls =? msg_seq msg) && (lb =? msg_ballot msg)) eqn:Hfirst.
  { apply andb_true_iff in Hfirst as [H1 H2]. apply Z.eqb_eq in H1, H2. cbv beta iota.
    split; [intros _; repeat split|intros Hn; exfalso; apply Hn; left; split; assumption]. }
  cbv beta iota.
  assert (Hnf : ~ (ls = msg_seq msg /\ lb = msg_ballot msg)).
  { intros [H1 H2]. subst. rewrite !Z.eqb_refl in Hfirst. discriminate. }
  assert (Hput : forall c, ht_get (ke_commands (ke_put_cmd ke (msg_key msg) c)) (msg_key msg) = Some c).
  { intros c. unfold ke_put_cmd, ke_set_commands. cbn [ke_commands]. apply ht_get_set_same. }
  destruct (ht_get (ke_commands ke) (msg_key msg)) as [c|] eqn:Hc; cbv beta iota.
  - pose proof (table_cmd_u64 _ _ _ cmd_seq Hcmds Hc) as Hcs.
    destruct (Z.ltb_spec (msg_ballot msg) (cmd_ballot c)) as [Hlt|Hge]; cbv beta iota.
    { split; [intros _; repeat split|intros Hn; exfalso; apply Hn; right; exists c; split; [reflexivity|exact Hlt]]. }
    assert (Hmax : is_u64 (Z.max (msg_seq msg) (Z.max ls (cmd_seq c)))) by (unfold is_u64 in *; lia).
    destruct (msg_seq msg >=? Z.max ls (cmd_seq c)); cbv beta iota;
      (split; [intros [H|(c0 & Hc0 & Hlt)]; [contradiction|]; injection Hc0 as <-; lia|]);
      intros _;
      (split; [reflexivity|]; split;
       [eexists; split; [apply Hput|cbn [cmd_set_seq_ballot_status cmd_ballot]; lia]|]);
      eexists; (split; [reflexivity|]);
      rewrite parse_build_message
        by (cbn [cmd_set_seq_ballot_status cmd_ballot length]; unfold is_u64 in *; lia);
      cbn [cmd_set_seq_ballot_status cmd_ballot];
      repeat f_equal; lia.
  - assert (Hmax : is_u64 (Z.max (msg_seq msg) (Z.max ls 0))) by (unfold is_u64 in *; lia).
    destruct (msg_seq msg >=? Z.max ls 0); cbv beta iota;
      (split; [intros [H|(c0 & Hc0 & _)]; [contradiction|discriminate]|]);
      intros _;
      (split; [reflexivity|]; split;
       [eexists; split; [apply Hput|reflexivity]|]);
      eexists; (split; [reflexivity|]);
      rewrite parse_build_message
        by (cbn [cmd_set_seq_ballot_status cmd_ballot length]; unfold is_u64 in *; lia);
      reflexivity.
Qed.


Lemma kepaxos_handle_preaccept_reply_witness :
  (Z.of_nat (length (ke_me (ke_with_cmd preaccepted_cmd))) + 1 < 2 ^ 16) /\
  (is_u64 (msg_ballot (mkmsg (node 2 ++ [0]) 513 7 1 0 0 test_key []))) /\
  (is_u64 (msg_seq (mkmsg (node 2 ++ [0]) 513 7 1 0 0 test_key []))) /\
  (Z.of_nat (length (msg_key (mkmsg (node 2 ++ [0]) 513 7 1 0 0 test_key []))) < 2 ^ 32) /\
  (Forall (fun it => is_u64 (snd (snd it))) (ke_log (ke_with_cmd preaccepted_cmd))) /\
  (Forall (fun kc => is_u64 (cmd_seq (snd kc))) (ke_commands (ke_with_cmd preaccepted_cmd))) /\
  let '(local_seq, local_ballot) := kepaxos_last_seq_for_key (ke_log (ke_with_cmd preaccepted_cmd)) (msg_key (mkmsg (node 2 ++ [0]) 513 7 1 0 0 test_key [])) in
  let cur := ht_get (ke_commands (ke_with_cmd preaccepted_cmd)) (msg_key (mkmsg (node 2 ++ [0]) 513 7 1 0 0 test_key [])) in
  let cur_seq := match cur with Some c => cmd_seq c | None => 0 end in
  let max_seq := Z.max (msg_seq (mkmsg (node 2 ++ [0]) 513 7 1 0 0 test_key [])) (Z.max local_seq cur_seq) in
  let refused := (local_seq = msg_seq (mkmsg (node 2 ++ [0]) 513 7 1 0 0 test_key []) /\ local_ballot = msg_ballot (mkmsg (node 2 ++ [0]) 513 7 1 0 0 test_key [])) \/
                 (exists c, cur = Some c /\ msg_ballot (mkmsg (node 2 ++ [0]) 513 7 1 0 0 test_key []) < cmd_ballot c) in
  let '(rc, ke', evs, resp) := kepaxos_handle_preaccept (ke_with_cmd preaccepted_cmd) (cbs_ok) (mkmsg (node 2 ++ [0]) 513 7 1 0 0 test_key []) in
  (refused -> rc = -1 /\ ke' = (ke_with_cmd preaccepted_cmd) /\ evs = [] /\ resp = None) /\
  (~ refused ->
     rc = 0 /\
     (exists c', ht_get (ke_commands ke') (msg_key (mkmsg (node 2 ++ [0]) 513 7 1 0 0 test_key [])) = Some c' /\ cmd_ballot c' = msg_ballot (mkmsg (node 2 ++ [0]) 513 7 1 0 0 test_key [])) /\
     exists r, resp = Some r /\
       kepaxos_parse_message r =
         Some (mkmsg (ke_me (ke_with_cmd preaccepted_cmd) ++ [0]) (msg_ballot (mkmsg (node 2 ++ [0]) 513 7 1 0 0 test_key [])) max_seq
                 (msg_type_code KEPAXOS_MSG_TYPE_PRE_ACCEPT_RESPONSE) 0
                 (if max_seq =? local_seq then 1 else 0) (msg_key (mkmsg (node 2 ++ [0]) 513 7 1 0 0 test_key [])) [])).
Proof.
  assert (H0 : Z.of_nat (length (ke_me (ke_with_cmd preaccepted_cmd))) + 1 < 2 ^ 16) by (decide_hyp).
  assert (H1 : is_u64 (msg_ballot (mkmsg (node 2 ++ [0]) 513 7 1 0 0 test_key []))) by (decide_hyp).
  assert (H2 : is_u64 (msg_seq (mkmsg (node 2 ++ [0]) 513 7 1 0 0 test_key []))) by (decide_hyp).
  assert (H3 : Z.of_nat (length (msg_key (mkmsg (node 2 ++ [0]) 513 7 1 0 0 test_key []))) < 2 ^ 32) by (decide_hyp).
  assert (H4 : Forall (fun it => is_u64 (snd (snd it))) (ke_log (ke_with_cmd preaccepted_cmd))) by (decide_hyp).
  assert (H5 : Forall (fun kc => is_u64 (cmd_seq (snd kc))) (ke_commands (ke_with_cmd preaccepted_cmd))) by (decide_hyp).
  split; [exact H0|].
  split; [exact H1|].
  split; [exact H2|].
  split; [exact H3|].
  split; [exact H4|].
  split; [exact H5|].
  exact (kepaxos_handle_preaccept_reply (ke_with_cmd preaccepted_cmd) (cbs_ok) (mkmsg (node 2 ++ [0]) 513 7 1 0 0 test_key []) H0 H1 H2 H3 H4 H5).
Defined.

(** A replica handling an Accept always returns 0 and calls no callback.
    When its command for the key has a higher ballot it sends no reply and
    changes nothing.  Otherwise its command for the key ends up holding the
    accepted [(ballot, seq)] -- the proposal's, unless the command already
    had a higher seq, in which case its own -- and is ACCEPTED when the
    proposal's were taken; the ACCEPT_RESPONSE from the replica carries
    that same pair, flagged committed exactly when the seq is the logged
    one. *)
Lemma kepaxos_handle_accept_reply ke cb msg
  (Hme : Z.of_nat (length (ke_me ke)) + 1 < 2 ^ 16)
  (Hb : is_u64 (msg_ballot msg)) (Hs : is_u64 (msg_seq msg))
  (Hk : Z.of_nat (length (msg_key msg)) < 2 ^ 32)
  (Hcmds : Forall (fun kc => is_u64 (cmd_ballot (snd kc)) /\ is_u64 (cmd_seq (snd kc))) (ke_commands ke)) :
  let local_seq := fst (kepaxos_last_seq_for_key (ke_log ke) (msg_key msg)) in
  let cur := ht_get (ke_commands ke) (msg_key msg) in
  let stale := exists c, cur = Some c /\ msg_ballot msg < cmd_ballot c in
  let '(accepted_ballot, accepted_seq) :=
    match cur with
    | Some c => if msg_seq msg <? cmd_seq c then (cmd_ballot c, cmd_seq c) else (msg_ballot msg, msg_seq msg)
    | None => (msg_ballot msg, msg_seq msg)
    end in
  let '(rc, ke', evs, resp) := kepaxos_handle_accept ke cb msg in
  rc = 0 /\ evs = [] /\
  (stale -> ke' = ke /\ resp = None) /\
  (~ stale ->
     (exists c', ht_get (ke_commands ke') (msg_key msg) = Some c' /\
                 cmd_ballot c' = accepted_ballot /\ cmd_seq c' = accepted_seq /\
                 (accepted_seq = msg_seq msg -> cmd_status c' = KEPAXOS_CMD_STATUS_ACCEPTED)) /\
     exists r, resp = Some r /\
       kepaxos_parse_message r =
         Some (mkmsg (ke_me ke ++ [0]) accepted_ballot accepted_seq
                 (msg_type_code KEPAXOS_MSG_TYPE_ACCEPT_RESPONSE) 0
                 (if accepted_seq =? local_seq then 1 else 0) (msg_key msg) [])).
Proof.
  unfold kepaxos_handle_accept.
  destruct (kepaxos_last_seq_for_key (ke_log ke) (msg_key msg)) as [ls lb] eqn:Hl.
  cbv zeta. cbn [fst].
  assert (Hput : forall c, ht_get (ke_commands (ke_put_cmd ke (msg_key msg) c)) (msg_key msg) = Some c).
  { intros c. unfold ke_put_cmd, ke_set_commands. cbn [ke_commands]. apply ht_get_set_same. }
  destruct (ht_get (ke_commands ke) (msg_key msg)) as [c|] eqn:Hc; cbv beta iota.
  - assert (Hcu : is_u64 (cmd_ballot c) /\ is_u64 (cmd_seq c)).
    { apply ht_get_in in Hc. rewrite Forall_forall in Hcmds. exact (Hcmds _ Hc). }
    destruct Hcu as [Hcb Hcs].
    destruct (Z.ltb_spec (msg_ballot msg) (cmd_ballot c)) as [Hlt|Hge].
    { destruct (msg_seq msg <? cmd_seq c); cbv beta iota;
      (split; [reflexivity|]); (split; [reflexivity|]);
      (split; [intros _; split; reflexivity|]);
      intros Hn; exfalso; apply Hn; exists c; (split; [reflexivity|exact Hlt]). }
    assert (Hns : ~ (exists c0, Some c = Some c0 /\ msg_ballot msg < cmd_ballot c0)).
    { intros (c0 & Hc0 & Hlt). injection Hc0 as <-. lia. }
    destruct (Z.ltb_spec (msg_seq msg) (cmd_seq c)) as [Hsl|Hsge]; cbv beta iota.
    + replace (msg_seq msg >=? cmd_seq c) with false by (symmetry; rewrite Z.geb_leb; apply Z.leb_gt; lia).
      cbv beta iota.
      split; [reflexivity|]. split; [reflexivity|].
      split; [intros H; contradiction|]. intros _.
      split; [exists c; split; [apply Hput|split; [reflexivity|split; [reflexivity|intros; lia]]]|].
      eexists; split; [reflexivity|].
      apply parse_build_message; cbn [length]; unfold is_u64 in *; lia.
    + replace (msg_seq msg >=? cmd_seq c) with true by (symmetry; apply Z.geb_le; lia).
      cbv beta iota.
      split; [reflexivity|]. split; [reflexivity|].
      split; [intros H; contradiction|]. intros _.
      split; [eexists; split; [apply Hput|split; [reflexivity|split; reflexivity]]|].
      eexists; split; [reflexivity|].
      apply parse_build_message; cbn [length]; unfold is_u64 in *; lia.
  - replace (msg_seq msg >=? cmd_seq (cmd_calloc (msg_key msg))) with true
      by (symmetry; apply Z.geb_le; unfold is_u64 in Hs; simpl; lia).
    cbv beta iota.
    split; [reflexivity|]. split; [reflexivity|].
    split; [intros (c0 & Hc0 & _); discriminate|]. intros _.
    split; [eexists; split; [apply Hput|split; [reflexivity|split; reflexivity]]|].
    eexists; split; [reflexivity|].
    apply parse_build_message; cbn [length]; unfold is_u64 in *; lia.
Qed.

Lemma kepaxos_handle_accept_reply_witness :
  (Z.of_nat (length (ke_me (ke_with_cmd accepted_cmd))) + 1 < 2 ^ 16) /\
  (is_u64 (msg_ballot (mkmsg (node 2 ++ [0]) 513 4 3 0 0 test_key []))) /\
  (is_u64 (msg_seq (mkmsg (node 2 ++ [0]) 513 4 3 0 0 test_key []))) /\
  (Z.of_nat (length (msg_key (mkmsg (node 2 ++ [0]) 513 4 3 0 0 test_key []))) < 2 ^ 32) /\
  (Forall (fun kc => is_u64 (cmd_ballot (snd kc)) /\ is_u64 (cmd_seq (snd kc))) (ke_commands (ke_with_cmd accepted_cmd))) /\
  let local_seq := fst (kepaxos_last_seq_for_key (ke_log (ke_with_cmd accepted_cmd)) (msg_key (mkmsg (node 2 ++ [0]) 513 4 3 0 0 test_key []))) in
  let cur := ht_get (ke_commands (ke_with_cmd accepted_cmd)) (msg_key (mkmsg (node 2 ++ [0]) 513 4 3 0 0 test_key [])) in
  let stale := exists c, cur = Some c /\ msg_ballot (mkmsg (node 2 ++ [0]) 513 4 3 0 0 test_key []) < cmd_ballot c in
  let '(accepted_ballot, accepted_seq) :=
    match cur with
    | Some c => if msg_seq (mkmsg (node 2 ++ [0]) 513 4 3 0 0 test_key []) <? cmd_seq c then (cmd_ballot c, cmd_seq c) else (msg_ballot (mkmsg (node 2 ++ [0]) 513 4 3 0 0 test_key []), msg_seq (mkmsg (node 2 ++ [0]) 513 4 3 0 0 test_key []))
    | None => (msg_ballot (mkmsg (node 2 ++ [0]) 513 4 3 0 0 test_key []), msg_seq (mkmsg (node 2 ++ [0]) 513 4 3 0 0 test_key []))
    end in
  let '(rc, ke', evs, resp) := kepaxos_handle_accept (ke_with_cmd accepted_cmd) (cbs_ok) (mkmsg (node 2 ++ [0]) 513 4 3 0 0 test_key []) in
  rc = 0 /\ evs = [] /\
  (stale -> ke' = (ke_with_cmd accepted_cmd) /\ resp = None) /\
  (~ stale ->
     (exists c', ht_get (ke_commands ke') (msg_key (mkmsg (node 2 ++ [0]) 513 4 3 0 0 test_key [])) = Some c' /\
                 cmd_ballot c' = accepted_ballot /\ cmd_seq c' = accepted_seq /\
                 (accepted_seq = msg_seq (mkmsg (node 2 ++ [0]) 513 4 3 0 0 test_key []) -> cmd_status c' = KEPAXOS_CMD_STATUS_ACCEPTED)) /\
     exists r, resp = Some r /\
       kepaxos_parse_message r =
         Some (mkmsg (ke_me (ke_with_cmd accepted_cmd) ++ [0]) accepted_ballot accepted_seq
                 (msg_type_code KEPAXOS_MSG_TYPE_ACCEPT_RESPONSE) 0
                 (if accepted_seq =? local_seq then 1 else 0) (msg_key (mkmsg (node 2 ++ [0]) 513 4 3 0 0 test_key [])) [])).
Proof.
  assert (H0 : Z.of_nat (length (ke_me (ke_with_cmd accepted_cmd))) + 1 < 2 ^ 16) by (decide_hyp).
  assert (H1 : is_u64 (msg_ballot (mkmsg (node 2 ++ [0]) 513 4 3 0 0 test_key []))) by (decide_hyp).
  assert (H2 : is_u64 (msg_seq (mkmsg (node 2 ++ [0]) 513 4 3 0 0 test_key []))) by (decide_hyp).
  assert (H3 : Z.of_nat (length (msg_key (mkmsg (node 2 ++ [0]) 513 4 3 0 0 test_key []))) < 2 ^ 32) by (decide_hyp).
  assert (H4 : Forall (fun kc => is_u64 (cmd_ballot (snd kc)) /\ is_u64 (cmd_seq (snd kc))) (ke_commands (ke_with_cmd accepted_cmd))) by (decide_hyp).
  split; [exact H0|].
  split; [exact H1|].
  split; [exact H2|].
  split; [exact H3|].
  split; [exact H4|].
  exact (kepaxos_handle_accept_reply (ke_with_cmd accepted_cmd) (cbs_ok) (mkmsg (node 2 ++ [0]) 513 4 3 0 0 test_key []) H0 H1 H2 H3 H4).
Defined.

(** What a replica does with input it cannot handle: a buffer shorter
    than 16 bytes or that does not parse is refused with -1 and no effect;
    a parsed message of a type the entry point does not handle is refused
    with -1 too, without a callback or a reply, but only after its ballot
    has been fed to [update_ballot]. *)
Lemma kepaxos_received_rejects ke cb buf :
  let ke_b msg := ke_set_ballot ke (update_ballot (ke_my_index ke) (ke_ballot ke) (msg_ballot msg)) in
  (Z.of_nat (length buf) < 16 \/ kepaxos_parse_message buf = None ->
     kepaxos_received_command ke cb buf = (-1, ke, [], None) /\
     kepaxos_received_response ke cb buf = (-1, ke, [])) /\
  (forall msg, 16 <= Z.of_nat (length buf) -> kepaxos_parse_message buf = Some msg ->
     (~ In (msg_mtype msg) [1; 3; 5] -> kepaxos_received_command ke cb buf = (-1, ke_b msg, [], None)) /\
     (~ In (msg_mtype msg) [2; 4] -> kepaxos_received_response ke cb buf = (-1, ke_b msg, []))).
Proof.
  intros ke_b. split.
  - intros H. unfold kepaxos_received_command, kepaxos_received_response.
    destruct (Z.ltb_spec (Z.of_nat (length buf)) 16) as [Hl|Hl]; [split; reflexivity|].
    destruct H as [H|H]; [lia|rewrite H; split; reflexivity].
  - intros msg Hl Hp.
    unfold kepaxos_received_command, kepaxos_received_response.
    replace (Z.of_nat (length buf) <? 16) with false by (symmetry; apply Z.ltb_ge; lia).
    rewrite Hp. cbn [msg_type_code]. fold (ke_b msg).
    split; intros Hn.
    + destruct (Z.eqb_spec (msg_mtype msg) 1) as [e|?]; [exfalso; apply Hn; rewrite e; simpl; auto|].
      destruct (Z.eqb_spec (msg_mtype msg) 3) as [e|?]; [exfalso; apply Hn; rewrite e; simpl; auto|].
      destruct (Z.eqb_spec (msg_mtype msg) 5) as [e|?]; [exfalso; apply Hn; rewrite e; simpl; auto|reflexivity].
    + destruct (Z.eqb_spec (msg_mtype msg) 2) as [e|?]; [exfalso; apply Hn; rewrite e; simpl; auto|].
      destruct (Z.eqb_spec (msg_mtype msg) 4) as [e|?]; [exfalso; apply Hn; rewrite e; simpl; auto|reflexivity].
Qed.

Lemma kepaxos_build_message_length sender mtype ctype ballot key data seq committed :
  Z.of_nat (length (kepaxos_build_message sender mtype ctype ballot key data seq committed))
  = KEPAXOS_MSGLEN_MIN + Z.of_nat (length sender) + 1 + Z.of_nat (length key) + Z.of_nat (length data).
Proof.
  unfold kepaxos_build_message. rewrite !length_app. simpl length. unfold KEPAXOS_MSGLEN_MIN. lia.
Qed.

(** A message built by [kepaxos_build_message] (as the [kepaxos_send_*]
    functions do) reaches the handler of its type: a replica's
    [kepaxos_received_command] runs the PreAccept, Accept or Commit handler,
    and [kepaxos_received_response] the PreAccept or Accept response
    handler, on the fields that were put in, after raising the ballot with
    the message's; the other types are refused with -1. *)
Lemma kepaxos_received_built ke cb sender mtype ctype ballot key data seq committed
  (Hs : Z.of_nat (length sender) + 1 < 2 ^ 16) (Hb : is_u64 ballot) (Hq : is_u64 seq)
  (Hk : Z.of_nat (length key) < 2 ^ 32) (Hd : Z.of_nat (length data) < 2 ^ 32) :
  let buf := kepaxos_build_message sender mtype ctype ballot key data seq committed in
  let msg := mkmsg (sender ++ [0]) ballot seq (msg_type_code mtype) ctype
                   (if committed then 1 else 0) key data in
  let ke1 := ke_set_ballot ke (update_ballot (ke_my_index ke) (ke_ballot ke) ballot) in
  kepaxos_received_command ke cb buf =
    match mtype with
    | KEPAXOS_MSG_TYPE_PRE_ACCEPT => kepaxos_handle_preaccept ke1 cb msg
    | KEPAXOS_MSG_TYPE_ACCEPT => kepaxos_handle_accept ke1 cb msg
    | KEPAXOS_MSG_TYPE_COMMIT => let '(rc, ke', evs) := kepaxos_handle_commit ke1 cb msg in (rc, ke', evs, None)
    | _ => (-1, ke1, [], None)
    end /\
  kepaxos_received_response ke cb buf =
    match mtype with
    | KEPAXOS_MSG_TYPE_PRE_ACCEPT_RESPONSE => kepaxos_handle_preaccept_response ke1 cb msg
    | KEPAXOS_MSG_TYPE_ACCEPT_RESPONSE => kepaxos_handle_accept_response ke1 cb msg
    | _ => (-1, ke1, [])
    end.
Proof.
  intros buf msg ke1.
  pose proof (kepaxos_build_message_length sender mtype ctype ballot key data seq committed) as Hlen.
  fold buf in Hlen.
  assert (Hp : kepaxos_parse_message buf = Some msg) by (apply parse_build_message; assumption).
  unfold kepaxos_received_command, kepaxos_received_response.
  replace (Z.of_nat (length buf) <? 16) with false
    by (symmetry; apply Z.ltb_ge; unfold KEPAXOS_MSGLEN_MIN in Hlen; lia).
  rewrite Hp. fold ke1.
  destruct mtype; split; reflexivity.
Qed.


Lemma kepaxos_received_built_witness :
  (Z.of_nat (length (node 2)) + 1 < 2 ^ 16) /\
  (is_u64 (513)) /\
  (is_u64 (4)) /\
  (Z.of_nat (length (test_key)) < 2 ^ 32) /\
  (Z.of_nat (length (@nil Z)) < 2 ^ 32) /\
  let buf := kepaxos_build_message (node 2) (KEPAXOS_MSG_TYPE_ACCEPT) (0) (513) (test_key) (@nil Z) (4) (false) in
  let msg := mkmsg ((node 2) ++ [0]) (513) (4) (msg_type_code (KEPAXOS_MSG_TYPE_ACCEPT)) (0)
                   (if (false) then 1 else 0) (test_key) (@nil Z) in
  let ke1 := ke_set_ballot (ke_with_cmd accepted_cmd) (update_ballot (ke_my_index (ke_with_cmd accepted_cmd)) (ke_ballot (ke_with_cmd accepted_cmd)) (513)) in
  kepaxos_received_command (ke_with_cmd accepted_cmd) (cbs_ok) buf =
    match (KEPAXOS_MSG_TYPE_ACCEPT) with
    | KEPAXOS_MSG_TYPE_PRE_ACCEPT => kepaxos_handle_preaccept ke1 (cbs_ok) msg
    | KEPAXOS_MSG_TYPE_ACCEPT => kepaxos_handle_accept ke1 (cbs_ok) msg
    | KEPAXOS_MSG_TYPE_COMMIT => let '(rc, ke', evs) := kepaxos_handle_commit ke1 (cbs_ok) msg in (rc, ke', evs, None)
    | _ => (-1, ke1, [], None)
    end /\
  kepaxos_received_response (ke_with_cmd accepted_cmd) (cbs_ok) buf =
    match (KEPAXOS_MSG_TYPE_ACCEPT) with
    | KEPAXOS_MSG_TYPE_PRE_ACCEPT_RESPONSE => kepaxos_handle_preaccept_response ke1 (cbs_ok) msg
    | KEPAXOS_MSG_TYPE_ACCEPT_RESPONSE => kepaxos_handle_accept_response ke1 (cbs_ok) msg
    | _ => (-1, ke1, [])
    end.
Proof.
  assert (H0 : Z.of_nat (length (node 2)) + 1 < 2 ^ 16) by (decide_hyp).
  assert (H1 : is_u64 (513)) by (decide_hyp).
  assert (H2 : is_u64 (4)) by (decide_hyp).
  assert (H3 : Z.of_nat (length (test_key)) < 2 ^ 32) by (decide_hyp).
  assert (H4 : Z.of_nat (length (@nil Z)) < 2 ^ 32) by (decide_hyp).
  split; [exact H0|].
  split; [exact H1|].
  split; [exact H2|].
  split; [exact H3|].
  split; [exact H4|].
  exact (kepaxos_received_built (ke_with_cmd accepted_cmd) (cbs_ok) (node 2) (KEPAXOS_MSG_TYPE_ACCEPT) (0) (513) (test_key) (@nil Z) (4) (false) H0 H1 H2 H3 H4).
Defined.

(* ------------------------------------------------------------------ *)
(** ** ARC cache: size updates, removal and lookups *)

Lemma wrap64_add_sub_add x y o n :
  wrap64 (wrap64 (wrap64 (x - o) + n) + y) = wrap64 (wrap64 (x + y) - o + n).
Proof.
  unfold wrap64.
  rewrite Z.add_mod_idemp_l by (simpl; lia).
  rewrite <- Z.add_assoc, Z.add_mod_idemp_l by (simpl; lia).
  replace ((x + y) mod 2 ^ 64 - o + n) with ((x + y) mod 2 ^ 64 + (n - o)) by lia.
  rewrite Z.add_mod_idemp_l by (simpl; lia).
  f_equal. lia.
Qed.

(** [arc_update_size] on a key the index does not hold changes nothing.
    On an indexed key it flags a rebalance and leaves the lists, [p] and
    the item count alone; for an object in MRU or MFU the object now has
    size [ARC_OBJ_BASE_SIZE + size] and [arc_size] moves by the difference
    (modulo [2^64]); for any other object nothing else changes. *)
Lemma arc_update_size_spec a key size :
  match ht_get (arc_hash a) key with
  | None => arc_update_size a key size = a
  | Some obj =>
      let a' := arc_update_size a key size in
      arc_needs_rebalance a' = true /\ arc_num_items a' = arc_num_items a /\
      arc_p a' = arc_p a /\ arc_c a' = arc_c a /\
      (forall s, st_list (arc_get_state a' s) = st_list (arc_get_state a s)) /\
      (is_mru_or_mfu (obj_state obj) = true ->
         let new_size := wrap64 (ARC_OBJ_BASE_SIZE (Z.of_nat (length (obj_key obj))) + size) in
         arc_size a' = wrap64 (arc_size a - obj_size obj + new_size) /\
         option_map obj_size (ht_get (arc_hash a') key) = Some new_size) /\
      (is_mru_or_mfu (obj_state obj) = false ->
         arc_size a' = arc_size a /\ arc_hash a' = arc_hash a)
  end.
Proof.
  unfold arc_update_size.
  destruct (ht_get (arc_hash a) key) as [obj|] eqn:Ho; [|reflexivity].
  destruct a as [h c p g1 r f g2 nr n]; cbn [arc_hash] in *.
  destruct (obj_state obj) as [[| | |]|] eqn:Hs; cbn -[wrap64 ARC_OBJ_BASE_SIZE ht_get ht_set];
    (split; [reflexivity|]); (split; [reflexivity|]); (split; [reflexivity|]);
    (split; [reflexivity|]); (split; [intros [| | |]; reflexivity|]);
    (split; [intros Ht; try discriminate|intros Ht; try discriminate; split; reflexivity]).
  - unfold arc_size; cbn [arc_mru arc_mfu st_size arc_hash].
    rewrite ht_get_set_same. split; [|reflexivity].
    apply wrap64_add_sub_add.
  - unfold arc_size; cbn [arc_mru arc_mfu st_size arc_hash].
    rewrite ht_get_set_same. split; [|reflexivity].
    rewrite Z.add_comm. rewrite (Z.add_comm (st_size r)).
    apply wrap64_add_sub_add.
Qed.

(** [arc_remove] of a key the index does not hold changes nothing.
    Otherwise the key leaves the index (other keys keep their objects), and
    if its object was on a list it leaves that list, whose counter drops by
    the object's size; the item count drops by one exactly when that list
    was MRU or MFU.  [c], [p], the rebalance flag and the other lists are
    untouched. *)
Lemma arc_remove_spec a ops key (Hkeyed : arc_index_keyed a) :
  match ht_get (arc_hash a) key with
  | None => arc_remove a ops key = a
  | Some obj =>
      let a' := arc_remove a ops key in
      ht_get (arc_hash a') key = None /\
      (forall k, buf_eqb k key = false -> ht_get (arc_hash a') k = ht_get (arc_hash a) k) /\
      arc_c a' = arc_c a /\ arc_p a' = arc_p a /\
      arc_needs_rebalance a' = arc_needs_rebalance a /\
      match obj_state obj with
      | None => (forall s, arc_get_state a' s = arc_get_state a s) /\ arc_num_items a' = arc_num_items a
      | Some s =>
          st_list (arc_get_state a' s) = arc_list_remove (st_list (arc_get_state a s)) key /\
          st_size (arc_get_state a' s) = wrap64 (st_size (arc_get_state a s) - obj_size obj) /\
          (forall s', arc_state_id_eqb s' s = false -> arc_get_state a' s' = arc_get_state a s') /\
          arc_num_items a' = (if is_mru_or_mfu (Some s) then wrap64 (arc_num_items a - 1)
                              else arc_num_items a)
      end
  end.
Proof.
  unfold arc_remove.
  destruct (ht_get (arc_hash a) key) as [obj|] eqn:Ho; [|reflexivity].
  destruct a as [h c p g1 r f g2 nr n]; cbn [arc_hash] in *.
  assert (Hk : obj_key obj = key).
  { apply ht_get_in in Ho. unfold arc_index_keyed in Hkeyed. cbn [arc_hash] in Hkeyed.
    rewrite Forall_forall in Hkeyed. exact (Hkeyed _ Ho). }
  destruct obj as [st sz k async]; cbn [obj_state obj_size obj_key] in *. subst k.
  unfold arc_move; cbn [obj_state obj_size obj_key arc_set_hash arc_hash].
  assert (Hdel : ht_get (ht_delete h key) key = None) by apply ht_get_delete_same.
  assert (Hoth : forall k, buf_eqb k key = false -> ht_get (ht_delete h key) k = ht_get h k)
    by (intros k' E; apply ht_get_delete_other; exact E).
  destruct st as [[| | |]|]; cbn -[wrap64 ht_get ht_delete arc_list_remove];
    repeat (split; [first [reflexivity | assumption] |]);
    try (split; [intros [| | |]; first [reflexivity | discriminate] | reflexivity]).
  all: try reflexivity.
Qed.

Lemma arc_remove_spec_witness :
  (arc_index_keyed (arc_run (arc_create 300) ops_100 [key_A])) /\
  match ht_get (arc_hash (arc_run (arc_create 300) ops_100 [key_A])) (key_A) with
  | None => arc_remove (arc_run (arc_create 300) ops_100 [key_A]) (ops_100) (key_A) = (arc_run (arc_create 300) ops_100 [key_A])
  | Some obj =>
      let a' := arc_remove (arc_run (arc_create 300) ops_100 [key_A]) (ops_100) (key_A) in
      ht_get (arc_hash a') (key_A) = None /\
      (forall k, buf_eqb k (key_A) = false -> ht_get (arc_hash a') k = ht_get (arc_hash (arc_run (arc_create 300) ops_100 [key_A])) k) /\
      arc_c a' = arc_c (arc_run (arc_create 300) ops_100 [key_A]) /\ arc_p a' = arc_p (arc_run (arc_create 300) ops_100 [key_A]) /\
      arc_needs_rebalance a' = arc_needs_rebalance (arc_run (arc_create 300) ops_100 [key_A]) /\
      match obj_state obj with
      | None => (forall s, arc_get_state a' s = arc_get_state (arc_run (arc_create 300) ops_100 [key_A]) s) /\ arc_num_items a' = arc_num_items (arc_run (arc_create 300) ops_100 [key_A])
      | Some s =>
          st_list (arc_get_state a' s) = arc_list_remove (st_list (arc_get_state (arc_run (arc_create 300) ops_100 [key_A]) s)) (key_A) /\
          st_size (arc_get_state a' s) = wrap64 (st_size (arc_get_state (arc_run (arc_create 300) ops_100 [key_A]) s) - obj_size obj) /\
          (forall s', arc_state_id_eqb s' s = false -> arc_get_state a' s' = arc_get_state (arc_run (arc_create 300) ops_100 [key_A]) s') /\
          arc_num_items a' = (if is_mru_or_mfu (Some s) then wrap64 (arc_num_items (arc_run (arc_create 300) ops_100 [key_A]) - 1)
                              else arc_num_items (arc_run (arc_create 300) ops_100 [key_A]))
      end
  end.
Proof.
  assert (H0 : arc_index_keyed (arc_run (arc_create 300) ops_100 [key_A])) by (vm_compute; repeat constructor).
  split; [exact H0|].
  exact (arc_remove_spec (arc_run (arc_create 300) ops_100 [key_A]) (ops_100) (key_A) H0).
Defined.






(** A lookup that misses, in a cache with no rebalance pending, when the
    backend's [fetch] returns 1 (do not cache): the caller gets a handle,
    the key is not indexed afterwards and the lists and the item count are
    as before.  When [fetch] succeeds with a size of at least [c]: the
    caller gets a handle, the key stays indexed with no list, the lists are
    as before, yet the item count goes up by one; a second synchronous
    lookup of the key calls [fetch] again and counts the object once more. *)
Lemma arc_lookup_miss_uncached a ops key async
  (Hnone : ht_get (arc_hash a) key = None) (Hnr : arc_needs_rebalance a = false) :
  let o := mkobj None (ARC_OBJ_BASE_SIZE (Z.of_nat (length key))) key async in
  let '(rc, size) := ops_fetch ops key in
  let '(h, a', evs) := arc_lookup a ops key async in
  (rc = 1 ->
     h = Some o /\ ht_get (arc_hash a') key = None /\
     (forall s, arc_get_state a' s = arc_get_state a s) /\ arc_num_items a' = arc_num_items a /\
     evs = [ArcCreate key; ArcFetch key 1]) /\
  (rc <> 1 -> rc <> -1 -> arc_c a <= size ->
     h = Some o /\ ht_get (arc_hash a') key = Some o /\
     (forall s, arc_get_state a' s = arc_get_state a s) /\
     arc_num_items a' = wrap64 (arc_num_items a + 1) /\
     evs = [ArcCreate key; ArcFetch key rc] /\
     (async = false ->
        let '(h2, a'', evs2) := arc_lookup a' ops key false in
        h2 = Some o /\ evs2 = [ArcFetch key rc] /\
        (forall s, arc_get_state a'' s = arc_get_state a s) /\
        arc_num_items a'' = wrap64 (arc_num_items a + 2))).
Proof.
  intros o.
  destruct a as [hs c p g1 r f g2 nr n]; cbn [arc_hash arc_needs_rebalance] in *. subst nr.
  destruct (ops_fetch ops key) as [rc size] eqn:Hf.
  unfold arc_lookup. cbn [arc_hash]. rewrite Hnone.
  unfold arc_move. cbn [obj_state obj_size obj_key obj_async arc_set_hash is_mru_or_mfu negb].
  rewrite Hf.
  destruct (Z.eqb_spec rc 1) as [->|H1].
  { cbn_arc. split; [|intros H; contradiction H; reflexivity]. intros _.
    repeat split; try reflexivity. apply ht_get_delete_same. }
  destruct (Z.eqb_spec rc (-1)) as [->|Hm1].
  { cbn_arc. split; [intros; lia|intros _ H; contradiction H; reflexivity]. }
  destruct (Z.leb_spec c size) as [Hc|Hc]; cbn_arc;
    [rewrite (proj2 (Z.leb_le c size) Hc) | rewrite (proj2 (Z.leb_gt c size) Hc)]; cbn_arc.
  2: { repeat match goal with |- context [match ?t with (_, _) => _ end] => destruct t end.
        split; [intros; contradiction|intros _ _ H; lia]. }
  split; [intros; contradiction|]. intros _ _ _.
  unfold hash_update. rewrite ht_get_set_same. cbn_arc.
  split; [reflexivity|]. split; [apply ht_get_set_same|].
  split; [intros [| | |]; reflexivity|]. split; [reflexivity|]. split; [reflexivity|].
  intros ->. rewrite ht_get_set_same. cbn_arc.
  rewrite Hf.
  replace (rc =? 1) with false by (symmetry; apply Z.eqb_neq; exact H1).
  replace (rc =? -1) with false by (symmetry; apply Z.eqb_neq; exact Hm1).
  replace (c <=? size) with true by (symmetry; apply Z.leb_le; exact Hc).
  cbn_arc.
  unfold hash_update. rewrite !ht_get_set_same. cbn_arc.
  split; [reflexivity|]. split; [reflexivity|].
  split; [intros [| | |]; reflexivity|].
  unfold wrap64. rewrite Z.add_mod_idemp_l by (simpl; lia). f_equal. lia.
Qed.

Lemma arc_lookup_miss_uncached_witness :
  (ht_get (arc_hash (arc_create 300)) (key_A) = None) /\
  (arc_needs_rebalance (arc_create 300) = false) /\
  let o := mkobj None (ARC_OBJ_BASE_SIZE (Z.of_nat (length (key_A)))) (key_A) (false) in
  let '(rc, size) := ops_fetch (mkops (fun _ => (0, 500))) (key_A) in
  let '(h, a', evs) := arc_lookup (arc_create 300) (mkops (fun _ => (0, 500))) (key_A) (false) in
  (rc = 1 ->
     h = Some o /\ ht_get (arc_hash a') (key_A) = None /\
     (forall s, arc_get_state a' s = arc_get_state (arc_create 300) s) /\ arc_num_items a' = arc_num_items (arc_create 300) /\
     evs = [ArcCreate (key_A); ArcFetch (key_A) 1]) /\
  (rc <> 1 -> rc <> -1 -> arc_c (arc_create 300) <= size ->
     h = Some o /\ ht_get (arc_hash a') (key_A) = Some o /\
     (forall s, arc_get_state a' s = arc_get_state (arc_create 300) s) /\
     arc_num_items a' = wrap64 (arc_num_items (arc_create 300) + 1) /\
     evs = [ArcCreate (key_A); ArcFetch (key_A) rc] /\
     ((false) = false ->
        let '(h2, a'', evs2) := arc_lookup a' (mkops (fun _ => (0, 500))) (key_A) false in
        h2 = Some o /\ evs2 = [ArcFetch (key_A) rc] /\
        (forall s, arc_get_state a'' s = arc_get_state (arc_create 300) s) /\
        arc_num_items a'' = wrap64 (arc_num_items (arc_create 300) + 2))).
Proof.
  assert (H0 : ht_get (arc_hash (arc_create 300)) (key_A) = None) by (vm_compute; reflexivity).
  assert (H1 : arc_needs_rebalance (arc_create 300) = false) by (vm_compute; reflexivity).
  split; [exact H0|].
  split; [exact H1|].
  exact (arc_lookup_miss_uncached (arc_create 300) (mkops (fun _ => (0, 500))) (key_A) (false) H0 H1).
Defined.

(** [kepaxos_handle_commit], the effects besides the log entry of the key:
    a commit refused for an in-flight command of the same seq and a higher
    ballot, or older than the logged seq, changes nothing and invokes no
    callback.  An applied commit invokes the commit callback once, as a
    replica (leader flag 0), with the message's command type, key and data;
    the in-flight command of the key is dropped exactly when its seq is not
    above the message's; the commands and log entries of other keys and the
    ballot are left alone. *)
Lemma kepaxos_handle_commit_effects ke cb msg :
  let cmdo := ht_get (ke_commands ke) (msg_key msg) in
  let refused := match cmdo with
                 | Some cmd => cmd_seq cmd = msg_seq msg /\ msg_ballot msg < cmd_ballot cmd
                 | None => False
                 end in
  let '(rc, ke', evs) := kepaxos_handle_commit ke cb msg in
  (refused -> rc = -1 /\ ke' = ke /\ evs = []) /\
  (~ refused -> msg_seq msg < fst (kepaxos_last_seq_for_key (ke_log ke) (msg_key msg)) ->
     rc = 0 /\ ke' = ke /\ evs = []) /\
  (~ refused -> fst (kepaxos_last_seq_for_key (ke_log ke) (msg_key msg)) <= msg_seq msg ->
     rc = 0 /\ evs = [EvCommit (msg_ctype msg) (msg_key msg) (msg_data msg) 0] /\
     ht_get (ke_commands ke') (msg_key msg) =
       match cmdo with
       | Some cmd => if cmd_seq cmd <=? msg_seq msg then None else Some cmd
       | None => None
       end /\
     (forall k, buf_eqb k (msg_key msg) = false ->
        ht_get (ke_commands ke') k = ht_get (ke_commands ke) k /\
        kepaxos_last_seq_for_key (ke_log ke') k = kepaxos_last_seq_for_key (ke_log ke) k) /\
     ke_ballot ke' = ke_ballot ke).
Proof.
  cbv zeta. unfold kepaxos_handle_commit.
  assert (Hlog : forall k, buf_eqb k (msg_key msg) = false ->
    kepaxos_last_seq_for_key (kepaxos_set_last_seq_for_key (ke_log ke) (msg_key msg)
                                (msg_ballot msg) (msg_seq msg)) k
    = kepaxos_last_seq_for_key (ke_log ke) k).
  { intros k Hk. unfold kepaxos_last_seq_for_key, kepaxos_set_last_seq_for_key.
    rewrite ht_get_set_other by exact Hk. reflexivity. }
  destruct (ht_get (ke_commands ke) (msg_key msg)) as [cmd|] eqn:Hc.
  - destruct ((cmd_seq cmd =? msg_seq msg) && (cmd_ballot cmd >? msg_ballot msg)) eqn:Ht; cbv beta iota.
    + apply andb_true_iff in Ht as [H1 H2]. apply Z.eqb_eq in H1.
      rewrite Z.gtb_ltb in H2. apply Z.ltb_lt in H2.
      split; [auto|]. split; intros Hn; exfalso; apply Hn; auto.
    + assert (Hnr : ~ (cmd_seq cmd = msg_seq msg /\ msg_ballot msg < cmd_ballot cmd)).
      { intros [Hs Hb]. exact (too_old_false_excl cmd msg Ht Hs Hb). }
      destruct (Z.ltb_spec (msg_seq msg) (fst (kepaxos_last_seq_for_key (ke_log ke) (msg_key msg))))
        as [Hs|Hs]; cbv beta iota; (split; [intros H; contradiction|]).
      * split; [auto|]. intros _ H; lia.
      * split; [intros _ H; lia|]. intros _ _.
        destruct (cmd_seq cmd <=? msg_seq msg); cbv beta iota; unfold ke_del_cmd, ke_set_commands, ke_set_log;
          cbn [ke_commands ke_log ke_ballot].
        -- split; [reflexivity|]. split; [reflexivity|]. split; [apply ht_get_delete_same|].
           split; [|reflexivity]. intros k Hk. split; [|exact (Hlog k Hk)].
           now rewrite ht_get_delete_other by exact Hk.
        -- split; [reflexivity|]. split; [reflexivity|]. split; [exact Hc|].
           split; [|reflexivity]. intros k Hk. split; [reflexivity|exact (Hlog k Hk)].
  - destruct (Z.ltb_spec (msg_seq msg) (fst (kepaxos_last_seq_for_key (ke_log ke) (msg_key msg))))
      as [Hs|Hs]; cbv beta iota; (split; [intros []|]).
    + split; [auto|]. intros _ H; lia.
    + split; [intros _ H; lia|]. intros _ _. unfold ke_set_log; cbn [ke_commands ke_log ke_ballot].
      split; [reflexivity|]. split; [reflexivity|]. split; [exact Hc|].
      split; [|reflexivity]. intros k Hk. split; [reflexivity|exact (Hlog k Hk)].
Qed.
